(** * Nigerian tax calculator: the calculation services, embedded and verified

    The calculators of [src/services] ([pitCalculator], [citCalculator],
    [cgtCalculator], [vatCalculator]) and the constants of
    [config/taxConfig] are pure functions over JavaScript numbers.  They are
    embedded here as Rocq functions over the rationals [Q]: every amount and
    rate is an exact rational, [+ - * /] are the field operations and the
    comparisons are the decidable order of [Q].  The rounding of binary64,
    [NaN] and the infinities are outside the model; the one place where the
    source produces [Infinity] on purpose (the size of the open-ended
    bracket) is modelled by an [option].  Equations between amounts are
    stated with [==], the equality of the rational field.

    [calculateVAT] is embedded a second time, in [Binary64], over the
    binary64 numbers the source computes with: the tolerance of its round
    trip is a matter of rounding, which the rationals do not have. *)

From Stdlib Require Import QArith Qminmax Qabs Qround Lqa Lia List String Bool.
From Stdlib Require Import DecimalString NArith PeanoNat.
From Stdlib Require Import PrimFloat.
Import ListNotations.

Local Open Scope Q_scope.

(** ** The host: what the JavaScript runtime provides *)

(** Number formatting is done by the runtime and depends on its locale;
    the calculators only paste its output into display texts.
    [toLocaleString] is [Number.prototype.toLocaleString()], [toString] is
    the conversion a template literal applies to a number. *)
Class Locale : Type := {
  toLocaleString : Q -> string;
  toString : Q -> string
}.

Module Math.
(** [Math.max(a, b)] and [Math.min(a, b)] on finite numbers. *)
Definition max (a b : Q) : Q := Qmax a b.
Definition min (a b : Q) : Q := Qmin a b.
End Math.

(** [x || 0] on an optional number: [undefined] and [0] both give [0]. *)
Definition orZero (x : option Q) : Q :=
  match x with
  | Some v => v
  | None => 0
  end.

(** [a > b] and [a <= b] as the source writes them. *)
Definition gtb (a b : Q) : bool := negb (Qle_bool a b).
Definition leb (a b : Q) : bool := Qle_bool a b.

(** [x && x > 0] on an optional number, used as a condition: [undefined]
    and [0] are falsy. *)
Definition definedPositive (x : option Q) : bool :=
  match x with
  | Some v => negb (Qeq_bool v 0) && gtb v 0
  | None => false
  end.

(** ** config/taxConfig *)

Module TaxBracket.
(** [max = None] is the source's [null]: the bracket has no upper end. *)
Record t : Type := mk {
  min : Q;
  max : option Q;
  rate : Q;
  label : string
}.
End TaxBracket.

Definition PIT_BRACKETS : list TaxBracket.t := [
  TaxBracket.mk 0 (Some 800000) 0 "Tax-Exempt";
  TaxBracket.mk 800001 (Some 3000000) 15 "15% Bracket";
  TaxBracket.mk 3000001 (Some 12000000) 18 "18% Bracket";
  TaxBracket.mk 12000001 (Some 25000000) 21 "21% Bracket";
  TaxBracket.mk 25000001 (Some 50000000) 23 "23% Bracket";
  TaxBracket.mk 50000001 None 25 "25% Bracket (Maximum)"
].

Definition PIT_EXEMPT_THRESHOLD : Q := 800000.
Definition JOB_LOSS_COMPENSATION_EXEMPT_LIMIT : Q := 50000000.
Definition RENT_RELIEF_MAX : Q := 500000.
Definition SMALL_COMPANY_TURNOVER_LIMIT : Q := 100000000.
Definition CIT_RATE : Q := 30.
Definition SMALL_COMPANY_CIT_RATE : Q := 0.
Definition DEVELOPMENT_LEVY_RATE : Q := 4.
Definition MINIMUM_EFFECTIVE_TAX_RATE : Q := 15.
Definition COMPANY_CGT_RATE : Q := 30.
Definition SMALL_COMPANY_CGT_RATE : Q := 0.
Definition VAT_RATE : Q := 7.5.

(** ** services/pitCalculator *)

Module IncomeSource.
Record t : Type := mk { type : string; amount : Q }.
End IncomeSource.

Module Deduction.
Record t : Type := mk { type : string; amount : Q }.
End Deduction.

Module AppliedDeduction.
(** An element of [applied] in the result of [calculateDeductions]. *)
Record t : Type := mk { type : string; amount : Q; capped : bool }.
End AppliedDeduction.

Module BracketBreakdown.
Record t : Type := mk {
  bracket : TaxBracket.t;
  taxableInBracket : Q;
  taxForBracket : Q
}.
End BracketBreakdown.

Module PITResult.
Record t : Type := mk {
  grossIncome : Q;
  totalDeductions : Q;
  taxableIncome : Q;
  totalTax : Q;
  netTakeHome : Q;
  effectiveRate : Q;
  isExempt : bool;
  exemptReason : option string;
  bracketBreakdown : list BracketBreakdown.t;
  monthlyTax : Q;
  monthlyNetPay : Q
}.
End PITResult.

Definition calculateGrossIncome (incomeSources : list IncomeSource.t) : Q :=
  fold_left (fun total source => total + IncomeSource.amount source)
            incomeSources 0.

(** The body of the loop of [calculateDeductions] up to the [push]: the
    three limits are tried in the order of the source, each on the amount
    left by the one before. *)
Definition applyLimits (grossIncome : Q) (deduction : Deduction.t)
  : AppliedDeduction.t :=
  let type := Deduction.type deduction in
  let amount := Deduction.amount deduction in
  let capped := false in
  let '(amount, capped) :=
    if String.eqb type "rent_relief" && gtb amount RENT_RELIEF_MAX
    then (RENT_RELIEF_MAX, true) else (amount, capped) in
  let '(amount, capped) :=
    if String.eqb type "job_loss"
       && gtb amount JOB_LOSS_COMPENSATION_EXEMPT_LIMIT
    then (JOB_LOSS_COMPENSATION_EXEMPT_LIMIT, true) else (amount, capped) in
  let '(amount, capped) :=
    if String.eqb type "pension"
    then let maxPension := grossIncome * 0.08 in
         if gtb amount maxPension then (maxPension, true)
         else (amount, capped)
    else (amount, capped) in
  AppliedDeduction.mk type amount capped.

(** One turn of the loop: [applied.push(...)] and [total += amount]. *)
Definition deductionStep (grossIncome : Q)
  (st : Q * list AppliedDeduction.t) (deduction : Deduction.t)
  : Q * list AppliedDeduction.t :=
  let a := applyLimits grossIncome deduction in
  (fst st + AppliedDeduction.amount a, snd st ++ [a]).

Definition calculateDeductions (deductions : list Deduction.t)
  (grossIncome : Q) : Q * list AppliedDeduction.t :=
  let '(total, applied) :=
    fold_left (deductionStep grossIncome) deductions (0, []) in
  let total := if gtb total grossIncome then grossIncome else total in
  (total, applied).

Module ProgressiveTax.
(** What [calculateProgressiveTax] returns. *)
Record t : Type := mk {
  totalTax : Q;
  breakdown : list BracketBreakdown.t
}.
End ProgressiveTax.

Module Walk.
(** The three variables the loop of [calculateProgressiveTax] updates. *)
Record t : Type := mk {
  breakdown : list BracketBreakdown.t;
  totalTax : Q;
  remainingIncome : Q
}.
End Walk.

(** [bracket.max ?? Infinity] followed by [bracketMax - bracketMin + 1]:
    [None] is [Infinity], which the subtraction and the addition keep. *)
Definition bracketSize (bracket : TaxBracket.t) : option Q :=
  match TaxBracket.max bracket with
  | Some bracketMax => Some (bracketMax - TaxBracket.min bracket + 1)
  | None => None
  end.

(** [Math.min(remainingIncome, bracketSize)] with a possibly infinite size. *)
Definition minWithSize (remainingIncome : Q) (size : option Q) : Q :=
  match size with
  | Some s => Math.min remainingIncome s
  | None => remainingIncome
  end.

(** One turn of the loop over [PIT_BRACKETS]. *)
Definition bracketStep (taxableIncome : Q) (st : Walk.t)
  (bracket : TaxBracket.t) : Walk.t :=
  let push b := Walk.breakdown st ++ [b] in
  if leb (Walk.remainingIncome st) 0 then
    Walk.mk (push (BracketBreakdown.mk bracket 0 0))
            (Walk.totalTax st) (Walk.remainingIncome st)
  else if Qeq_bool (TaxBracket.rate bracket) 0 then
    if leb taxableIncome PIT_EXEMPT_THRESHOLD then
      Walk.mk (push (BracketBreakdown.mk bracket taxableIncome 0))
              (Walk.totalTax st) 0
    else
      Walk.mk (push (BracketBreakdown.mk bracket PIT_EXEMPT_THRESHOLD 0))
              (Walk.totalTax st) (taxableIncome - PIT_EXEMPT_THRESHOLD)
  else
    let taxableInBracket :=
      minWithSize (Walk.remainingIncome st) (bracketSize bracket) in
    let taxForBracket := taxableInBracket * TaxBracket.rate bracket / 100 in
    Walk.mk (push (BracketBreakdown.mk bracket taxableInBracket taxForBracket))
            (Walk.totalTax st + taxForBracket)
            (Walk.remainingIncome st - taxableInBracket).

(** The loop over a bracket table, from a given state. *)
Definition walkBrackets (taxableIncome : Q) (brackets : list TaxBracket.t)
  (st : Walk.t) : Walk.t :=
  fold_left (bracketStep taxableIncome) brackets st.

Definition calculateProgressiveTax (taxableIncome : Q) : ProgressiveTax.t :=
  let st := walkBrackets taxableIncome PIT_BRACKETS
                         (Walk.mk [] 0 taxableIncome) in
  ProgressiveTax.mk (Walk.totalTax st) (Walk.breakdown st).

(** [PIT_BRACKETS[0]]; the table is a non-empty constant. *)
Definition firstBracket : TaxBracket.t :=
  nth 0 PIT_BRACKETS (TaxBracket.mk 0 None 0 "").

Section pitCalculator.
Context {host : Locale}.

Definition calculatePIT (incomeSources : list IncomeSource.t)
  (deductions : list Deduction.t) (isResident : bool) : PITResult.t :=
  let grossIncome := calculateGrossIncome incomeSources in
  let totalDeductions := fst (calculateDeductions deductions grossIncome) in
  let taxableIncome := Math.max 0 (grossIncome - totalDeductions) in
  if leb taxableIncome PIT_EXEMPT_THRESHOLD then
    {| PITResult.grossIncome := grossIncome;
       PITResult.totalDeductions := totalDeductions;
       PITResult.taxableIncome := taxableIncome;
       PITResult.totalTax := 0;
       PITResult.netTakeHome := grossIncome - totalDeductions;
       PITResult.effectiveRate := 0;
       PITResult.isExempt := true;
       PITResult.exemptReason :=
         Some ("Annual income of " ++ toLocaleString taxableIncome
               ++ " is below ₦" ++ toLocaleString PIT_EXEMPT_THRESHOLD
               ++ " threshold")%string;
       PITResult.bracketBreakdown :=
         [BracketBreakdown.mk firstBracket taxableIncome 0];
       PITResult.monthlyTax := 0;
       PITResult.monthlyNetPay := (grossIncome - totalDeductions) / 12 |}
  else
    let r := calculateProgressiveTax taxableIncome in
    let totalTax := ProgressiveTax.totalTax r in
    let breakdown := ProgressiveTax.breakdown r in
    let finalTax := if isResident then totalTax else totalTax in
    let netTakeHome := grossIncome - totalDeductions - finalTax in
    let effectiveRate :=
      if gtb grossIncome 0 then (finalTax / grossIncome) * 100 else 0 in
    {| PITResult.grossIncome := grossIncome;
       PITResult.totalDeductions := totalDeductions;
       PITResult.taxableIncome := taxableIncome;
       PITResult.totalTax := finalTax;
       PITResult.netTakeHome := netTakeHome;
       PITResult.effectiveRate := effectiveRate;
       PITResult.isExempt := false;
       PITResult.exemptReason := None;
       PITResult.bracketBreakdown := breakdown;
       PITResult.monthlyTax := finalTax / 12;
       PITResult.monthlyNetPay := netTakeHome / 12 |}.

Definition quickPITEstimate (annualIncome : Q) : PITResult.t :=
  calculatePIT [IncomeSource.mk "salary" annualIncome] [] true.

End pitCalculator.

(** ** services/citCalculator *)

Inductive CompanySize : Type := small | other.
Inductive CompanyType : Type := domestic | multinational.

Module CITInput.
Record t : Type := mk {
  turnover : Q;
  assessableProfits : Q;
  companyType : CompanyType;
  isMultinationalSubject : bool;
  foreignProfits : option Q;
  distributedForeignProfits : option Q
}.
End CITInput.

Module CITLine.
(** An element of [CITResult.breakdown]. *)
Record t : Type := mk {
  label : string;
  amount : Q;
  rate : option Q;
  note : option string
}.
End CITLine.

Module CITResult.
Record t : Type := mk {
  companySize : CompanySize;
  turnover : Q;
  assessableProfits : Q;
  citRate : Q;
  citAmount : Q;
  developmentLevy : Q;
  totalTaxBeforeTopUp : Q;
  effectiveTaxRate : Q;
  minimumTaxTopUp : Q;
  cfcTax : Q;
  totalTaxPayable : Q;
  breakdown : list CITLine.t
}.
End CITResult.

Definition determineCompanySize (turnover : Q) : CompanySize :=
  if leb turnover SMALL_COMPANY_TURNOVER_LIMIT then small else other.

Definition calculateMinimumTaxTopUp (assessableProfits currentTax : Q)
  (isSubjectToMETR : bool) : Q :=
  if negb isSubjectToMETR || leb assessableProfits 0 then 0
  else
    let currentEffectiveRate := (currentTax / assessableProfits) * 100 in
    if leb MINIMUM_EFFECTIVE_TAX_RATE currentEffectiveRate then 0
    else
      let minimumTax :=
        (assessableProfits * MINIMUM_EFFECTIVE_TAX_RATE) / 100 in
      minimumTax - currentTax.

(** The two parameters default to [0] when the caller passes [undefined]. *)
Definition calculateCFCTax (foreignProfits distributedProfits : option Q)
  : Q :=
  let undistributedProfits :=
    Math.max 0 (orZero foreignProfits - orZero distributedProfits) in
  (undistributedProfits * CIT_RATE) / 100.

Section citCalculator.
Context {host : Locale}.

Definition calculateSmallCompanyCIT (input : CITInput.t) : CITResult.t :=
  {| CITResult.companySize := small;
     CITResult.turnover := CITInput.turnover input;
     CITResult.assessableProfits := CITInput.assessableProfits input;
     CITResult.citRate := SMALL_COMPANY_CIT_RATE;
     CITResult.citAmount := 0;
     CITResult.developmentLevy := 0;
     CITResult.totalTaxBeforeTopUp := 0;
     CITResult.effectiveTaxRate := 0;
     CITResult.minimumTaxTopUp := 0;
     CITResult.cfcTax := 0;
     CITResult.totalTaxPayable := 0;
     CITResult.breakdown := [
       CITLine.mk "Company Classification" 0 None
         (Some ("Small Company (Turnover ≤ ₦"
                ++ toLocaleString SMALL_COMPANY_TURNOVER_LIMIT ++ ")")%string);
       CITLine.mk "Corporate Income Tax" 0 (Some SMALL_COMPANY_CIT_RATE)
         (Some "0% CIT rate for small companies"%string);
       CITLine.mk "Development Levy" 0 (Some 0)
         (Some "Exempt for small companies"%string)
     ] |}.

Definition calculateOtherCompanyCIT (input : CITInput.t) : CITResult.t :=
  let breakdown : list CITLine.t := [] in
  let citAmount := (CITInput.assessableProfits input * CIT_RATE) / 100 in
  let breakdown := breakdown ++ [
    CITLine.mk "Corporate Income Tax" citAmount (Some CIT_RATE)
      (Some (toString CIT_RATE ++ "% on assessable profits")%string)] in
  let developmentLevy :=
    (CITInput.assessableProfits input * DEVELOPMENT_LEVY_RATE) / 100 in
  let breakdown := breakdown ++ [
    CITLine.mk "Development Levy" developmentLevy (Some DEVELOPMENT_LEVY_RATE)
      (Some (toString DEVELOPMENT_LEVY_RATE
             ++ "% of assessable profits")%string)] in
  let totalTaxBeforeTopUp := citAmount + developmentLevy in
  let minimumTaxTopUp :=
    calculateMinimumTaxTopUp (CITInput.assessableProfits input)
      totalTaxBeforeTopUp (CITInput.isMultinationalSubject input) in
  let breakdown :=
    if CITInput.isMultinationalSubject input then
      breakdown ++ [
        CITLine.mk "Minimum Tax Top-Up (METR 15%)" minimumTaxTopUp
          (Some MINIMUM_EFFECTIVE_TAX_RATE)
          (Some (if gtb minimumTaxTopUp 0
                 then "Top-up applied to meet 15% minimum effective rate"
                 else "No top-up needed - effective rate already ≥15%")
                %string)]
    else breakdown in
  let cfcTax :=
    calculateCFCTax (CITInput.foreignProfits input)
                    (CITInput.distributedForeignProfits input) in
  let breakdown :=
    if definedPositive (CITInput.foreignProfits input) then
      breakdown ++ [
        CITLine.mk "CFC Tax (Foreign Profits)" cfcTax (Some CIT_RATE)
          (Some "Tax on undistributed foreign subsidiary profits"%string)]
    else breakdown in
  let totalTaxPayable := totalTaxBeforeTopUp + minimumTaxTopUp + cfcTax in
  let effectiveTaxRate :=
    if gtb (CITInput.assessableProfits input) 0
    then (totalTaxPayable / CITInput.assessableProfits input) * 100
    else 0 in
  {| CITResult.companySize := other;
     CITResult.turnover := CITInput.turnover input;
     CITResult.assessableProfits := CITInput.assessableProfits input;
     CITResult.citRate := CIT_RATE;
     CITResult.citAmount := citAmount;
     CITResult.developmentLevy := developmentLevy;
     CITResult.totalTaxBeforeTopUp := totalTaxBeforeTopUp;
     CITResult.effectiveTaxRate := effectiveTaxRate;
     CITResult.minimumTaxTopUp := minimumTaxTopUp;
     CITResult.cfcTax := cfcTax;
     CITResult.totalTaxPayable := totalTaxPayable;
     CITResult.breakdown := breakdown |}.

Definition calculateCIT (input : CITInput.t) : CITResult.t :=
  let companySize := determineCompanySize (CITInput.turnover input) in
  match companySize with
  | small => calculateSmallCompanyCIT input
  | other => calculateOtherCompanyCIT input
  end.

Definition quickCITEstimate (turnover profits : Q) : CITResult.t :=
  calculateCIT (CITInput.mk turnover profits domestic false None None).

End citCalculator.

(** ** services/cgtCalculator *)

Inductive TaxpayerType : Type := individual | company.

Module CGTInput.
Record t : Type := mk {
  taxpayerType : TaxpayerType;
  saleProceeds : Q;
  acquisitionCost : Q;
  improvementCosts : option Q;
  transferCosts : option Q;
  isOffshoreTransfer : option bool;
  companyTurnover : option Q
}.
End CGTInput.

Module CGTLine.
(** An element of [CGTResult.breakdown]. *)
Record t : Type := mk {
  label : string;
  amount : Q;
  note : option string
}.
End CGTLine.

(** [cgtRate : number | string]. *)
Inductive CGTRate : Type :=
| rateNumber (r : Q)
| rateText (s : string).

Module CGTResult.
Record t : Type := mk {
  taxpayerType : TaxpayerType;
  saleProceeds : Q;
  totalCosts : Q;
  capitalGain : Q;
  cgtRate : CGTRate;
  cgtAmount : Q;
  netProceeds : Q;
  effectiveRate : Q;
  isExempt : bool;
  exemptReason : option string;
  breakdown : list CGTLine.t
}.
End CGTResult.

Definition calculateTotalCosts (input : CGTInput.t) : Q :=
  CGTInput.acquisitionCost input
  + orZero (CGTInput.improvementCosts input)
  + orZero (CGTInput.transferCosts input).

(** The lines every path of the calculator starts its breakdown with; the
    taxed paths list the optional costs only when they are positive. *)
Definition costLines (input : CGTInput.t) : list CGTLine.t :=
  [CGTLine.mk "Sale Proceeds" (CGTInput.saleProceeds input) None;
   CGTLine.mk "Acquisition Cost" (CGTInput.acquisitionCost input) None]
  ++ match CGTInput.improvementCosts input with
     | Some c => if definedPositive (Some c)
                 then [CGTLine.mk "Improvement Costs" c None] else []
     | None => []
     end
  ++ match CGTInput.transferCosts input with
     | Some c => if definedPositive (Some c)
                 then [CGTLine.mk "Transfer Costs" c None] else []
     | None => []
     end.

Definition exemptLines (input : CGTInput.t) (capitalGain : Q)
  (why : string) : list CGTLine.t :=
  [CGTLine.mk "Sale Proceeds" (CGTInput.saleProceeds input) None;
   CGTLine.mk "Acquisition Cost" (CGTInput.acquisitionCost input) None;
   CGTLine.mk "Improvement Costs"
              (orZero (CGTInput.improvementCosts input)) None;
   CGTLine.mk "Transfer Costs" (orZero (CGTInput.transferCosts input)) None;
   CGTLine.mk "Capital Gain" capitalGain None;
   CGTLine.mk "CGT (Exempt)" 0 (Some why)].

Section cgtCalculator.
Context {host : Locale}.

Definition calculateCompanyCGT (input : CGTInput.t) : CGTResult.t :=
  let totalCosts := calculateTotalCosts input in
  let capitalGain := Math.max 0 (CGTInput.saleProceeds input - totalCosts) in
  let isSmallCompany :=
    match CGTInput.companyTurnover input with
    | Some companyTurnover => leb companyTurnover SMALL_COMPANY_TURNOVER_LIMIT
    | None => false
    end in
  if isSmallCompany then
    {| CGTResult.taxpayerType := company;
       CGTResult.saleProceeds := CGTInput.saleProceeds input;
       CGTResult.totalCosts := totalCosts;
       CGTResult.capitalGain := capitalGain;
       CGTResult.cgtRate := rateNumber SMALL_COMPANY_CGT_RATE;
       CGTResult.cgtAmount := 0;
       CGTResult.netProceeds := CGTInput.saleProceeds input;
       CGTResult.effectiveRate := 0;
       CGTResult.isExempt := true;
       CGTResult.exemptReason :=
         Some ("Small company (turnover ≤ ₦"
               ++ toLocaleString SMALL_COMPANY_TURNOVER_LIMIT
               ++ ") - CGT exempt")%string;
       CGTResult.breakdown :=
         exemptLines input capitalGain "Small company exemption" |}
  else
    let cgtAmount := (capitalGain * COMPANY_CGT_RATE) / 100 in
    let breakdown :=
      costLines input
      ++ [CGTLine.mk "Capital Gain" capitalGain None;
          CGTLine.mk "CGT (30%)" cgtAmount
            (match CGTInput.isOffshoreTransfer input with
             | Some true =>
                 Some "Includes indirect offshore share transfer"%string
             | _ => None
             end)] in
    {| CGTResult.taxpayerType := company;
       CGTResult.saleProceeds := CGTInput.saleProceeds input;
       CGTResult.totalCosts := totalCosts;
       CGTResult.capitalGain := capitalGain;
       CGTResult.cgtRate := rateNumber COMPANY_CGT_RATE;
       CGTResult.cgtAmount := cgtAmount;
       CGTResult.netProceeds := CGTInput.saleProceeds input - cgtAmount;
       CGTResult.effectiveRate :=
         if gtb (CGTInput.saleProceeds input) 0
         then (cgtAmount / CGTInput.saleProceeds input) * 100 else 0;
       CGTResult.isExempt := false;
       CGTResult.exemptReason := None;
       CGTResult.breakdown := breakdown |}.

(** The line the individual path adds for a bracket that took a part of
    the gain. *)
Definition bracketLine (b : BracketBreakdown.t) : CGTLine.t :=
  CGTLine.mk
    ("Tax @ " ++ toString (TaxBracket.rate (BracketBreakdown.bracket b))
     ++ "%")%string
    (BracketBreakdown.taxForBracket b)
    (Some ("On ₦" ++ toLocaleString (BracketBreakdown.taxableInBracket b))
          %string).

Definition calculateIndividualCGT (input : CGTInput.t) : CGTResult.t :=
  let totalCosts := calculateTotalCosts input in
  let capitalGain := Math.max 0 (CGTInput.saleProceeds input - totalCosts) in
  let exemptThreshold : Q := 800000 in
  if leb capitalGain exemptThreshold then
    {| CGTResult.taxpayerType := individual;
       CGTResult.saleProceeds := CGTInput.saleProceeds input;
       CGTResult.totalCosts := totalCosts;
       CGTResult.capitalGain := capitalGain;
       CGTResult.cgtRate := rateText "0%";
       CGTResult.cgtAmount := 0;
       CGTResult.netProceeds := CGTInput.saleProceeds input;
       CGTResult.effectiveRate := 0;
       CGTResult.isExempt := true;
       CGTResult.exemptReason :=
         Some ("Capital gain of ₦" ++ toLocaleString capitalGain
               ++ " is below ₦" ++ toLocaleString exemptThreshold
               ++ " threshold")%string;
       CGTResult.breakdown :=
         exemptLines input capitalGain "Below exempt threshold" |}
  else
    let r := calculateProgressiveTax capitalGain in
    let totalTax := ProgressiveTax.totalTax r in
    let bracketBreakdown := ProgressiveTax.breakdown r in
    let breakdown :=
      costLines input
      ++ [CGTLine.mk "Capital Gain" capitalGain None]
      ++ map bracketLine
           (filter (fun b => gtb (BracketBreakdown.taxableInBracket b) 0)
                   bracketBreakdown)
      ++ [CGTLine.mk "Total CGT" totalTax None] in
    let effectiveRate :=
      if gtb capitalGain 0 then (totalTax / capitalGain) * 100 else 0 in
    {| CGTResult.taxpayerType := individual;
       CGTResult.saleProceeds := CGTInput.saleProceeds input;
       CGTResult.totalCosts := totalCosts;
       CGTResult.capitalGain := capitalGain;
       CGTResult.cgtRate := rateText "Progressive (max 25%)";
       CGTResult.cgtAmount := totalTax;
       CGTResult.netProceeds := CGTInput.saleProceeds input - totalTax;
       CGTResult.effectiveRate := effectiveRate;
       CGTResult.isExempt := false;
       CGTResult.exemptReason := None;
       CGTResult.breakdown := breakdown |}.

Definition calculateCGT (input : CGTInput.t) : CGTResult.t :=
  match CGTInput.taxpayerType input with
  | company => calculateCompanyCGT input
  | individual => calculateIndividualCGT input
  end.

Definition quickCGTEstimate (taxpayerType : TaxpayerType)
  (saleProceeds acquisitionCost : Q) : CGTResult.t :=
  calculateCGT
    (CGTInput.mk taxpayerType saleProceeds acquisitionCost
                 None None None None).

End cgtCalculator.

(** ** services/vatCalculator *)

Inductive VATCalculationType : Type := inclusive | exclusive.

Module VATInput.
Record t : Type := mk {
  amount : Q;
  calculationType : VATCalculationType
}.
End VATInput.

Module VATResult.
Record t : Type := mk {
  originalAmount : Q;
  vatRate : Q;
  vatAmount : Q;
  netAmount : Q;
  grossAmount : Q;
  calculationType : VATCalculationType
}.
End VATResult.

Definition calculateVAT (input : VATInput.t) : VATResult.t :=
  let vatRate := VAT_RATE in
  let vatMultiplier := vatRate / 100 in
  match VATInput.calculationType input with
  | exclusive =>
      let netAmount := VATInput.amount input in
      let vatAmount := netAmount * vatMultiplier in
      let grossAmount := netAmount + vatAmount in
      {| VATResult.originalAmount := VATInput.amount input;
         VATResult.vatRate := vatRate;
         VATResult.vatAmount := vatAmount;
         VATResult.netAmount := netAmount;
         VATResult.grossAmount := grossAmount;
         VATResult.calculationType := exclusive |}
  | inclusive =>
      let grossAmount := VATInput.amount input in
      let netAmount := grossAmount / (1 + vatMultiplier) in
      let vatAmount := grossAmount - netAmount in
      {| VATResult.originalAmount := VATInput.amount input;
         VATResult.vatRate := vatRate;
         VATResult.vatAmount := vatAmount;
         VATResult.netAmount := netAmount;
         VATResult.grossAmount := grossAmount;
         VATResult.calculationType := inclusive |}
  end.

Definition quickVATExclusive (amount : Q) : VATResult.t :=
  calculateVAT (VATInput.mk amount exclusive).

Definition quickVATInclusive (amount : Q) : VATResult.t :=
  calculateVAT (VATInput.mk amount inclusive).

(** [a < b] as the source writes it. *)
Definition ltb (a b : Q) : bool := negb (Qle_bool b a).

Module VATBusinessInput.
Record t : Type := mk {
  outputVAT : Q;
  inputVAT : Q
}.
End VATBusinessInput.

Module VATBusinessResult.
Record t : Type := mk {
  outputVAT : Q;
  inputVAT : Q;
  netVAT : Q;
  isPayable : bool;
  isRefundable : bool;
  explanation : string
}.
End VATBusinessResult.

Section vatCalculator.
Context {host : Locale}.

Definition calculateBusinessVAT (input : VATBusinessInput.t)
  : VATBusinessResult.t :=
  let outputVAT := VATBusinessInput.outputVAT input in
  let inputVAT := VATBusinessInput.inputVAT input in
  let netVAT := outputVAT - inputVAT in
  let isPayable := gtb netVAT 0 in
  let isRefundable := ltb netVAT 0 in
  let explanation :=
    (if isPayable then
       "You collected ₦" ++ toLocaleString outputVAT
       ++ " in VAT from customers and paid ₦" ++ toLocaleString inputVAT
       ++ " in VAT on purchases. You owe ₦"
       ++ toLocaleString (Qabs netVAT) ++ " to NRS."
     else if isRefundable then
       "You collected ₦" ++ toLocaleString outputVAT
       ++ " in VAT from customers but paid ₦" ++ toLocaleString inputVAT
       ++ " in VAT on purchases. You are entitled to a refund of ₦"
       ++ toLocaleString (Qabs netVAT) ++ " from NRS."
     else
       "Your output VAT equals your input VAT. No VAT payment or refund is due."
    )%string in
  {| VATBusinessResult.outputVAT := outputVAT;
     VATBusinessResult.inputVAT := inputVAT;
     VATBusinessResult.netVAT := netVAT;
     VATBusinessResult.isPayable := isPayable;
     VATBusinessResult.isRefundable := isRefundable;
     VATBusinessResult.explanation := explanation |}.

End vatCalculator.

Module VATItem.
(** A line item given to [calculateMultiItemVAT]. *)
Record t : Type := mk {
  description : string;
  amount : Q;
  isVATExempt : option bool
}.
End VATItem.

Module VATLine.
(** A line item as returned by [calculateMultiItemVAT]. *)
Record t : Type := mk {
  description : string;
  amount : Q;
  vatAmount : Q;
  totalWithVAT : Q;
  isExempt : bool
}.
End VATLine.

Module MultiItemVAT.
Record t : Type := mk {
  items : list VATLine.t;
  totalNet : Q;
  totalVAT : Q;
  grandTotal : Q
}.
End MultiItemVAT.

(** What the callback of [items.map] returns for one item. *)
Definition processItem (vatRate : Q) (item : VATItem.t) : VATLine.t :=
  let isExempt :=
    match VATItem.isVATExempt item with
    | Some true => true
    | _ => false
    end in
  let vatAmount := if isExempt then 0 else VATItem.amount item * vatRate in
  let totalWithVAT := VATItem.amount item + vatAmount in
  {| VATLine.description := VATItem.description item;
     VATLine.amount := VATItem.amount item;
     VATLine.vatAmount := vatAmount;
     VATLine.totalWithVAT := totalWithVAT;
     VATLine.isExempt := isExempt |}.

(** One call of the callback: the line is appended to the mapped array
    and the two running totals are updated. *)
Definition multiItemStep (vatRate : Q)
  (st : list VATLine.t * Q * Q) (item : VATItem.t)
  : list VATLine.t * Q * Q :=
  let '(processed, totalNet, totalVAT) := st in
  let line := processItem vatRate item in
  (processed ++ [line],
   totalNet + VATItem.amount item,
   totalVAT + VATLine.vatAmount line).

Definition calculateMultiItemVAT (items : list VATItem.t) : MultiItemVAT.t :=
  let vatRate := VAT_RATE / 100 in
  let '(processedItems, totalNet, totalVAT) :=
    fold_left (multiItemStep vatRate) items ([], 0, 0) in
  {| MultiItemVAT.items := processedItems;
     MultiItemVAT.totalNet := totalNet;
     MultiItemVAT.totalVAT := totalVAT;
     MultiItemVAT.grandTotal := totalNet + totalVAT |}.

(** ** utils/validators *)

(** A JavaScript string is a sequence of UTF-16 code units. *)
Definition jsString : Type := list N.

(** The characters [\s] matches and [trim] removes: the white space and
    the line terminators of ECMAScript. *)
Definition isSpace (c : N) : bool :=
  ((9 <=? c) && (c <=? 13) || (c =? 32) || (c =? 160) || (c =? 5760)
   || (8192 <=? c) && (c <=? 8202) || (c =? 8232) || (c =? 8233)
   || (c =? 8239) || (c =? 8287) || (c =? 12288) || (c =? 65279))%N.

(** [\d] and [[0-9]]. *)
Definition isDigit (c : N) : bool := ((48 <=? c) && (c <=? 57))%N.

Definition isHyphen (c : N) : bool := (c =? 45)%N.

(** [tin.trim() === '']: nothing is left once the white space at both
    ends is removed. *)
Definition isBlank (s : jsString) : bool := forallb isSpace s.

(** [/^\d+$/.test(s)]. *)
Definition onlyDigits (s : jsString) : bool :=
  negb (Nat.eqb (List.length s) 0) && forallb isDigit s.

(** [TIN_PATTERN.test(s)], for [/^[0-9]{10}$|^[0-9]{8}-[0-9]{4}$/]. *)
Definition TIN_PATTERN (s : jsString) : bool :=
  Nat.eqb (List.length s) 10 && forallb isDigit s
  || Nat.eqb (List.length s) 13
     && forallb isDigit (firstn 8 s)
     && forallb isHyphen (firstn 1 (skipn 8 s))
     && forallb isDigit (skipn 9 s).

Module Validation.
Record t : Type := mk { valid : bool; message : string }.
End Validation.

Definition validateTIN (tin : jsString) : Validation.t :=
  if Nat.eqb (List.length tin) 0 || isBlank tin then
    Validation.mk false "TIN is required for tax compliance"
  else
    let cleanedTIN := filter (fun c => negb (isSpace c || isHyphen c)) tin in
    if negb (onlyDigits cleanedTIN) then
      Validation.mk false "TIN must contain only numbers"
    else if negb (Nat.eqb (List.length cleanedTIN) 10)
            && negb (Nat.eqb (List.length cleanedTIN) 12) then
      Validation.mk false "TIN must be 10 or 12 digits"
    else if TIN_PATTERN (filter (fun c => negb (isSpace c)) tin) then
      Validation.mk true "Valid TIN format"
    else if Nat.eqb (List.length cleanedTIN) 10
            || Nat.eqb (List.length cleanedTIN) 12 then
      Validation.mk true "Valid TIN format"
    else
      Validation.mk false "Invalid TIN format".

(** ** services/vatCalculator in binary64 *)

Module Binary64.

(** [calculateVAT] over the binary64 numbers of the source: the same
    operations in the same order, each rounded as IEEE 754 rounds it. *)

Definition VAT_RATE : float := 7.5%float.

Module VATInput.
Record t : Type := mk {
  amount : float;
  calculationType : VATCalculationType
}.
End VATInput.

Module VATResult.
Record t : Type := mk {
  originalAmount : float;
  vatRate : float;
  vatAmount : float;
  netAmount : float;
  grossAmount : float;
  calculationType : VATCalculationType
}.
End VATResult.

Definition calculateVAT (input : VATInput.t) : VATResult.t :=
  let vatRate := VAT_RATE in
  let vatMultiplier := PrimFloat.div vatRate 100%float in
  match VATInput.calculationType input with
  | exclusive =>
      let netAmount := VATInput.amount input in
      let vatAmount := PrimFloat.mul netAmount vatMultiplier in
      let grossAmount := PrimFloat.add netAmount vatAmount in
      {| VATResult.originalAmount := VATInput.amount input;
         VATResult.vatRate := vatRate;
         VATResult.vatAmount := vatAmount;
         VATResult.netAmount := netAmount;
         VATResult.grossAmount := grossAmount;
         VATResult.calculationType := exclusive |}
  | inclusive =>
      let grossAmount := VATInput.amount input in
      let netAmount :=
        PrimFloat.div grossAmount (PrimFloat.add 1%float vatMultiplier) in
      let vatAmount := PrimFloat.sub grossAmount netAmount in
      {| VATResult.originalAmount := VATInput.amount input;
         VATResult.vatRate := vatRate;
         VATResult.vatAmount := vatAmount;
         VATResult.netAmount := netAmount;
         VATResult.grossAmount := grossAmount;
         VATResult.calculationType := inclusive |}
  end.

(** The net amount after the round trip: the tax is added to [N] in
    exclusive mode and extracted from the gross amount in inclusive mode. *)
Definition roundTrip (N : float) : float :=
  VATResult.netAmount
    (calculateVAT
       (VATInput.mk
          (VATResult.grossAmount (calculateVAT (VATInput.mk N exclusive)))
          inclusive)).

(** [Math.abs(x - y) <= tolerance], as a test on the source writes it. *)
Definition within (tolerance x y : float) : bool :=
  PrimFloat.leb (PrimFloat.abs (PrimFloat.sub x y)) tolerance.

End Binary64.

(** ** Running the model *)

(** A formatter to evaluate the calculators on concrete inputs: both
    conversions print the integer part of the number in plain digits.  No
    number computed by the calculators depends on the formatter. *)
Definition plainDigits : Locale :=
  {| toLocaleString := fun q => NilZero.string_of_int (Z.to_int (Qfloor q));
     toString := fun q => NilZero.string_of_int (Z.to_int (Qfloor q)) |}.

(** ** The vocabulary of the properties *)

(** The sum of the [taxForBracket] fields of a breakdown, taken from the
    left as [reduce((s, b) => s + b.taxForBracket, 0)] does. *)
Definition sumTaxForBracket (breakdown : list BracketBreakdown.t) : Q :=
  fold_left (fun s b => s + BracketBreakdown.taxForBracket b) breakdown 0.

(** A bracket the walk taxes: its rate is positive and its size, when it
    has one, is not negative. *)
Definition taxedBracket (b : TaxBracket.t) : bool :=
  negb (Qeq_bool (TaxBracket.rate b) 0)
  && leb 0 (TaxBracket.rate b)
  && match bracketSize b with
     | Some s => leb 0 s
     | None => true
     end.

(** Two walks side by side: what one turn keeps. *)
Definition walkLe (st1 st2 : Walk.t) : Prop :=
  Walk.totalTax st1 <= Walk.totalTax st2
  /\ Walk.remainingIncome st1 <= Walk.remainingIncome st2.

(** The total counted for a category: the sum of the amounts of the
    applied deductions of that type. *)
Definition categoryTotal (type : string)
  (applied : list AppliedDeduction.t) : Q :=
  fold_left
    (fun s a =>
       if String.eqb (AppliedDeduction.type a) type
       then s + AppliedDeduction.amount a else s)
    applied 0.

(** The limit of a category, and of every deduction of that category. *)
Definition categoryLimit (type : string) (grossIncome : Q) : option Q :=
  if String.eqb type "pension" then Some (grossIncome * 0.08)
  else if String.eqb type "rent_relief" then Some RENT_RELIEF_MAX
  else if String.eqb type "job_loss"
       then Some JOB_LOSS_COMPENSATION_EXEMPT_LIMIT
  else None.

(** An amount against a limit; a category without a limit allows any. *)
Definition withinLimit (amount : Q) (limit : option Q) : Prop :=
  match limit with
  | Some l => amount <= l
  | None => True
  end.

(** How many deductions of a list have a given type. *)
Definition countType (type : string) (deductions : list Deduction.t) : nat :=
  List.length
    (filter (fun d => String.eqb (Deduction.type d) type) deductions).

(** Capping by category total: the amounts counted for each of the three
    limited categories, added up, stay within the limit of the category,
    and the total stays within the gross income. *)
Definition categoryTotalsCapped (deductions : list Deduction.t)
  (grossIncome : Q) : Prop :=
  let total := fst (calculateDeductions deductions grossIncome) in
  let applied := snd (calculateDeductions deductions grossIncome) in
  categoryTotal "pension" applied <= grossIncome * 0.08
  /\ categoryTotal "rent_relief" applied <= RENT_RELIEF_MAX
  /\ categoryTotal "job_loss" applied <= JOB_LOSS_COMPENSATION_EXEMPT_LIMIT
  /\ total <= grossIncome.

(** Two pension contributions of 100,000 on a gross income of 1,000,000:
    each is cut to 80,000 and both are counted. *)
Definition twoPensions : list Deduction.t :=
  [Deduction.mk "pension" 100000; Deduction.mk "pension" 100000].

(** The rate of the result against the sale proceeds, [0] when there are
    no proceeds. *)
Definition rateOnProceeds (r : CGTResult.t) : Q :=
  if Qeq_bool (CGTResult.saleProceeds r) 0 then 0
  else CGTResult.cgtAmount r / CGTResult.saleProceeds r * 100.

(** The rate of the result against the capital gain. *)
Definition rateOnGain (r : CGTResult.t) : Q :=
  CGTResult.cgtAmount r / CGTResult.capitalGain r * 100.

(** The sale of the fifth scenario of the specification: an individual
    sells for 2,000,000 what was bought for 500,000. *)
Definition saleByIndividual : CGTInput.t :=
  CGTInput.mk individual 2000000 500000 None None None None.

(** The second scenario of the specification: a salary of 500,000. *)
Definition halfMillionSalary : list IncomeSource.t :=
  [IncomeSource.mk "salary" 500000].

(** An individual's sale with a gain of 500,000, under the threshold. *)
Definition smallGain : CGTInput.t :=
  CGTInput.mk individual 1000000 500000 None None None None.

(** A company at the turnover limit, with profits, foreign profits and
    the multinational flag set. *)
Definition smallCompanyProfits : CITInput.t :=
  CITInput.mk 100000000 50000000 multinational true (Some 1000000) None.

(** A sale with a gain of 8,000,000 by a company at the turnover limit. *)
Definition smallCompanySale : CGTInput.t :=
  CGTInput.mk company 9000000 1000000 None None None (Some 100000000).

(** The sum of the [taxableInBracket] fields of a breakdown. *)
Definition sumTaxableInBracket (breakdown : list BracketBreakdown.t) : Q :=
  fold_left (fun s b => s + BracketBreakdown.taxableInBracket b) breakdown 0.

(** The tax schedule the bracket table stands for, band by band: nothing up
    to 800,000, then 15%, 18%, 21%, 23% and 25% of the part of the amount
    inside each band, on top of the tax of the bands below. *)
Definition progressiveSchedule (A : Q) : Q :=
  if leb A 800000 then 0
  else if leb A 3000000 then (A - 800000) * 15 / 100
  else if leb A 12000000 then 330000 + (A - 3000000) * 18 / 100
  else if leb A 25000000 then 1950000 + (A - 12000000) * 21 / 100
  else if leb A 50000000 then 4680000 + (A - 25000000) * 23 / 100
  else 10430000 + (A - 50000000) * 25 / 100.

(** A state of the walk with given total and remaining income. *)
Definition walkAt (st : Walk.t) (t r : Q) : Prop :=
  Walk.totalTax st == t /\ Walk.remainingIncome st == r.

(** An entry of a breakdown whose tax is its taxable part at the rate of
    its bracket. *)
Definition taxedAtRate (e : BracketBreakdown.t) : Prop :=
  BracketBreakdown.taxForBracket e
  == BracketBreakdown.taxableInBracket e
     * TaxBracket.rate (BracketBreakdown.bracket e) / 100.

(** The sum of the amounts counted for a list of applied deductions. *)
Definition sumApplied (applied : list AppliedDeduction.t) : Q :=
  fold_left (fun s a => s + AppliedDeduction.amount a) applied 0.

(** The categories [calculateDeductions] has a limit for. *)
Definition limitedType (type : string) : bool :=
  String.eqb type "rent_relief" || String.eqb type "job_loss"
  || String.eqb type "pension".

(** How an applied deduction relates to the deduction it comes from. *)
Definition appliedFrom (d : Deduction.t) (a : AppliedDeduction.t) : Prop :=
  AppliedDeduction.type a = Deduction.type d
  /\ AppliedDeduction.amount a <= Deduction.amount d
  /\ (AppliedDeduction.capped a = true
      <-> AppliedDeduction.amount a < Deduction.amount d)
  /\ (AppliedDeduction.capped a = false ->
      AppliedDeduction.amount a = Deduction.amount d)
  /\ (limitedType (Deduction.type d) = false ->
      AppliedDeduction.capped a = false).

(** The sum of the amounts of the lines of a corporate breakdown. *)
Definition sumCITLines (breakdown : list CITLine.t) : Q :=
  fold_left (fun s l => s + CITLine.amount l) breakdown 0.

(** Two corporate results with equal amounts, whatever their breakdowns. *)
Definition sameCITAmounts (r1 r2 : CITResult.t) : Prop :=
  CITResult.companySize r1 = CITResult.companySize r2
  /\ CITResult.citRate r1 == CITResult.citRate r2
  /\ CITResult.citAmount r1 == CITResult.citAmount r2
  /\ CITResult.developmentLevy r1 == CITResult.developmentLevy r2
  /\ CITResult.totalTaxBeforeTopUp r1 == CITResult.totalTaxBeforeTopUp r2
  /\ CITResult.effectiveTaxRate r1 == CITResult.effectiveTaxRate r2
  /\ CITResult.minimumTaxTopUp r1 == CITResult.minimumTaxTopUp r2
  /\ CITResult.cfcTax r1 == CITResult.cfcTax r2
  /\ CITResult.totalTaxPayable r1 == CITResult.totalTaxPayable r2.

(** An input with other values for the two fields that describe the
    company as a multinational. *)
Definition asCompanyOfType (input : CITInput.t) (companyType : CompanyType)
  (isMultinationalSubject : bool) : CITInput.t :=
  {| CITInput.turnover := CITInput.turnover input;
     CITInput.assessableProfits := CITInput.assessableProfits input;
     CITInput.companyType := companyType;
     CITInput.isMultinationalSubject := isMultinationalSubject;
     CITInput.foreignProfits := CITInput.foreignProfits input;
     CITInput.distributedForeignProfits :=
       CITInput.distributedForeignProfits input |}.

(** A company above the turnover limit, subject to the minimum rate, with
    1,000,000 of foreign profits of which 400,000 are distributed. *)
Definition multinationalProfits : CITInput.t :=
  CITInput.mk 200000000 10000000 multinational true
              (Some 1000000) (Some 400000).

(** An input with another value for [isOffshoreTransfer]. *)
Definition withOffshoreTransfer (input : CGTInput.t)
  (isOffshoreTransfer : option bool) : CGTInput.t :=
  {| CGTInput.taxpayerType := CGTInput.taxpayerType input;
     CGTInput.saleProceeds := CGTInput.saleProceeds input;
     CGTInput.acquisitionCost := CGTInput.acquisitionCost input;
     CGTInput.improvementCosts := CGTInput.improvementCosts input;
     CGTInput.transferCosts := CGTInput.transferCosts input;
     CGTInput.isOffshoreTransfer := isOffshoreTransfer;
     CGTInput.companyTurnover := CGTInput.companyTurnover input |}.

(** A capital gains result without its breakdown; the lines of the
    breakdown are kept as pairs of label and amount. *)
Definition CGTHeadline (r : CGTResult.t)
  : TaxpayerType * Q * Q * Q * CGTRate * Q * Q * Q * bool * option string
    * list (string * Q) :=
  (CGTResult.taxpayerType r, CGTResult.saleProceeds r,
   CGTResult.totalCosts r, CGTResult.capitalGain r, CGTResult.cgtRate r,
   CGTResult.cgtAmount r, CGTResult.netProceeds r,
   CGTResult.effectiveRate r, CGTResult.isExempt r,
   CGTResult.exemptReason r,
   map (fun l => (CGTLine.label l, CGTLine.amount l))
       (CGTResult.breakdown r)).

(** Whether [calculateCompanyCGT] treats the input as a small company. *)
Definition isSmallCompany (input : CGTInput.t) : bool :=
  match CGTInput.companyTurnover input with
  | Some companyTurnover => leb companyTurnover SMALL_COMPANY_TURNOVER_LIMIT
  | None => false
  end.

(** The tax on a capital gain, by kind of taxpayer. *)
Definition cgtSchedule (input : CGTInput.t) (capitalGain : Q) : Q :=
  match CGTInput.taxpayerType input with
  | individual => progressiveSchedule capitalGain
  | company =>
      if isSmallCompany input then 0 else capitalGain * 30 / 100
  end.

(** The sum of a quantity over a list, taken from the left. *)
Definition sumOf {X : Type} (f : X -> Q) (l : list X) : Q :=
  fold_left (fun s x => s + f x) l 0.

(** Whether an item is marked exempt: [item.isVATExempt || false]. *)
Definition itemExempt (item : VATItem.t) : bool :=
  match VATItem.isVATExempt item with
  | Some true => true
  | _ => false
  end.

(** How a returned line relates to the item it comes from: the amount is
    kept; an exempt item carries no tax; any other item carries the tax
    and the gross amount [calculateVAT] gives for its amount in exclusive
    mode. *)
Definition lineOf (item : VATItem.t) (line : VATLine.t) : Prop :=
  VATLine.description line = VATItem.description item
  /\ VATLine.amount line = VATItem.amount item
  /\ VATLine.isExempt line = itemExempt item
  /\ (if itemExempt item
      then VATLine.vatAmount line == 0
           /\ VATLine.totalWithVAT line == VATItem.amount item
      else VATLine.vatAmount line
           == VATResult.vatAmount
                (calculateVAT (VATInput.mk (VATItem.amount item) exclusive))
           /\ VATLine.totalWithVAT line
              == VATResult.grossAmount
                   (calculateVAT
                      (VATInput.mk (VATItem.amount item) exclusive))).

(** [tin.replace(/[\s-]/g, '')] and [tin.replace(/\s/g, '')]. *)
Definition cleanTIN (tin : jsString) : jsString :=
  filter (fun c => negb (isSpace c || isHyphen c)) tin.

Definition withoutSpaces (tin : jsString) : jsString :=
  filter (fun c => negb (isSpace c)) tin.

(** Ten or twelve digits and nothing else. *)
Definition tenOrTwelveDigits (s : jsString) : bool :=
  onlyDigits s
  && (Nat.eqb (List.length s) 10 || Nat.eqb (List.length s) 12).

(** The code units of ["12345678-9012"] with spaces around. *)
Definition spacedTIN : jsString :=
  [32; 49; 50; 51; 52; 53; 54; 55; 56; 45; 57; 48; 49; 50; 32]%N.

(** Three line items, the second one exempt. *)
Definition threeItems : list VATItem.t :=
  [VATItem.mk "paper" 1000 None;
   VATItem.mk "bread" 400 (Some true);
   VATItem.mk "ink" 600 (Some false)].

(** A salary of 6,000,000 with a bonus of 1,000,000. *)
Definition salaryAndBonus : list IncomeSource.t :=
  [IncomeSource.mk "salary" 6000000; IncomeSource.mk "bonus" 1000000].

(** A pension contribution above the limit and a rent relief under it. *)
Definition pensionAndRent : list Deduction.t :=
  [Deduction.mk "pension" 700000; Deduction.mk "rent_relief" 300000].

(** Two rows of rent relief of 600,000 each, as the form lets a user
    enter them, on a salary of 5,000,000. *)
Definition twoRentReliefs : list Deduction.t :=
  [Deduction.mk "rent_relief" 600000; Deduction.mk "rent_relief" 600000].

Definition fiveMillionSalary : list IncomeSource.t :=
  [IncomeSource.mk "salary" 5000000].

(** ** Comparisons as propositions *)

Lemma leb_spec (a b : Q) : BoolSpec (a <= b) (b < a) (leb a b).
Proof.
  unfold leb. destruct (Qle_bool a b) eqn:E; constructor.
  - now apply Qle_bool_iff.
  - apply Qnot_le_lt. intro H. apply Qle_bool_iff in H. congruence.
Qed.

Lemma gtb_spec (a b : Q) : BoolSpec (b < a) (a <= b) (gtb a b).
Proof.
  unfold gtb. change (Qle_bool a b) with (leb a b).
  destruct (leb_spec a b); cbn [negb]; constructor; assumption.
Qed.

Lemma leb_true (a b : Q) : a <= b -> leb a b = true.
Proof. intro H. destruct (leb_spec a b); [reflexivity | lra]. Qed.

Lemma leb_false (a b : Q) : b < a -> leb a b = false.
Proof. intro H. destruct (leb_spec a b); [lra | reflexivity]. Qed.

Lemma gtb_true (a b : Q) : b < a -> gtb a b = true.
Proof. intro H. destruct (gtb_spec a b); [reflexivity | lra]. Qed.

Lemma gtb_false (a b : Q) : a <= b -> gtb a b = false.
Proof. intro H. destruct (gtb_spec a b); [lra | reflexivity]. Qed.

Lemma Qeq_bool_0_pos (s : Q) : 0 < s -> Qeq_bool s 0 = false.
Proof.
  intro H. destruct (Qeq_bool s 0) eqn:E; [| reflexivity].
  apply Qeq_bool_iff in E. lra.
Qed.

Lemma Qeq_bool_0_nonpos (s : Q) : 0 <= s -> s <= 0 -> Qeq_bool s 0 = true.
Proof. intros H1 H2. apply Qeq_bool_iff. lra. Qed.

Lemma Math_max_0_nonneg (x : Q) : 0 <= Math.max 0 x.
Proof. unfold Math.max. apply Q.le_max_l. Qed.

(** ** The bracket walk: total and breakdown *)

Lemma sumTaxForBracket_push (l : list BracketBreakdown.t)
  (b : BracketBreakdown.t) :
  sumTaxForBracket (l ++ [b])
  = sumTaxForBracket l + BracketBreakdown.taxForBracket b.
Proof. unfold sumTaxForBracket. now rewrite fold_left_app. Qed.

(** A turn of the loop adds the same amount to [totalTax] and to the sum
    of the breakdown. *)
Lemma bracketStep_keeps_gap (A : Q) (st : Walk.t) (b : TaxBracket.t) :
  Walk.totalTax (bracketStep A st b)
    - sumTaxForBracket (Walk.breakdown (bracketStep A st b))
  == Walk.totalTax st - sumTaxForBracket (Walk.breakdown st).
Proof.
  unfold bracketStep.
  destruct (leb (Walk.remainingIncome st) 0);
    [| destruct (Qeq_bool (TaxBracket.rate b) 0);
       [destruct (leb A PIT_EXEMPT_THRESHOLD) |]];
    cbn [Walk.totalTax Walk.breakdown];
    rewrite sumTaxForBracket_push; cbn [BracketBreakdown.taxForBracket];
    ring.
Qed.

Lemma walkBrackets_keeps_gap (A : Q) (brackets : list TaxBracket.t) :
  forall st : Walk.t,
    Walk.totalTax (walkBrackets A brackets st)
      - sumTaxForBracket (Walk.breakdown (walkBrackets A brackets st))
    == Walk.totalTax st - sumTaxForBracket (Walk.breakdown st).
Proof.
  induction brackets as [| b brackets IH]; intro st.
  - reflexivity.
  - change (walkBrackets A (b :: brackets) st)
      with (walkBrackets A brackets (bracketStep A st b)).
    etransitivity; [apply IH | apply bracketStep_keeps_gap].
Qed.

Lemma totalTax_is_breakdown_sum (A : Q) :
  ProgressiveTax.totalTax (calculateProgressiveTax A)
  == sumTaxForBracket (ProgressiveTax.breakdown (calculateProgressiveTax A)).
Proof.
  unfold calculateProgressiveTax. cbn [ProgressiveTax.totalTax
    ProgressiveTax.breakdown].
  pose proof (walkBrackets_keeps_gap A PIT_BRACKETS (Walk.mk [] 0 A)) as H.
  cbn [Walk.totalTax Walk.breakdown] in H.
  unfold sumTaxForBracket at 2 in H. cbn [fold_left] in H.
  lra.
Qed.

(** C2. For every taxable amount [A >= 0], the [totalTax] returned by
    [calculateProgressiveTax A] equals the sum of the [taxForBracket]
    fields of the returned breakdown, as an equation of rationals. *)
Theorem calculateProgressiveTax_total_is_sum (A : Q) :
  0 <= A ->
  ProgressiveTax.totalTax (calculateProgressiveTax A)
  == sumTaxForBracket (ProgressiveTax.breakdown (calculateProgressiveTax A)).
Proof.
  intros _. unfold calculateProgressiveTax.
  cbn [ProgressiveTax.totalTax ProgressiveTax.breakdown].
  pose proof (walkBrackets_keeps_gap A PIT_BRACKETS (Walk.mk [] 0 A)) as H.
  cbn [Walk.totalTax Walk.breakdown] in H.
  unfold sumTaxForBracket at 2 in H. cbn [fold_left] in H.
  lra.
Qed.

Lemma calculateProgressiveTax_total_is_sum_witness :
  0 <= 1000000
  /\ ProgressiveTax.totalTax (calculateProgressiveTax 1000000)
     == sumTaxForBracket
          (ProgressiveTax.breakdown (calculateProgressiveTax 1000000)).
Proof.
  split; [lra |].
  apply (calculateProgressiveTax_total_is_sum 1000000). lra.
Defined.

(** ** The bracket walk: monotonicity *)

Lemma tax_le (t1 t2 r : Q) :
  t1 <= t2 -> 0 <= r -> t1 * r / 100 <= t2 * r / 100.
Proof.
  intros Ht Hr. unfold Qdiv.
  apply Qmult_le_compat_r; [| discriminate].
  now apply Qmult_le_compat_r.
Qed.

Lemma tax_nonneg (t r : Q) : 0 <= t -> 0 <= r -> 0 <= t * r / 100.
Proof.
  intros Ht Hr. setoid_replace 0 with (0 * r / 100) by field.
  now apply tax_le.
Qed.

Lemma bracketStep_walkLe (A1 A2 : Q) (st1 st2 : Walk.t) (b : TaxBracket.t) :
  taxedBracket b = true ->
  walkLe st1 st2 ->
  walkLe (bracketStep A1 st1 b) (bracketStep A2 st2 b).
Proof.
  unfold taxedBracket, walkLe. intros Hb [Ht Hr].
  apply andb_prop in Hb as [Hb Hsize]. apply andb_prop in Hb as [Hne Hrate].
  apply negb_true_iff in Hne.
  destruct (leb_spec 0 (TaxBracket.rate b)) as [Hrate' | ?];
    [clear Hrate | discriminate].
  unfold bracketStep. rewrite Hne.
  destruct (leb_spec (Walk.remainingIncome st1) 0) as [H1 | H1];
    destruct (leb_spec (Walk.remainingIncome st2) 0) as [H2 | H2];
    cbn [Walk.totalTax Walk.remainingIncome]; unfold minWithSize, Math.min.
  - split; assumption.
  - destruct (bracketSize b) as [s |].
    + destruct (leb_spec 0 s) as [Hs | ?]; [| discriminate].
      destruct (Q.min_spec (Walk.remainingIncome st2) s) as [[Hlt E] | [Hle E]];
        rewrite E;
        match goal with
        | |- _ <= _ + ?t * ?r / 100 /\ _ =>
            pose proof (tax_nonneg t r)
        end; split; lra.
    + pose proof (tax_nonneg (Walk.remainingIncome st2) (TaxBracket.rate b)).
      split; lra.
  - lra.
  - destruct (bracketSize b) as [s |].
    + destruct (leb_spec 0 s) as [Hs | ?]; [| discriminate].
      destruct (Q.min_spec (Walk.remainingIncome st1) s) as [[Hlt1 E1] | [Hle1 E1]];
        destruct (Q.min_spec (Walk.remainingIncome st2) s) as [[Hlt2 E2] | [Hle2 E2]];
        rewrite E1, E2;
        match goal with
        | |- _ + ?t1 * ?r / 100 <= _ + ?t2 * ?r / 100 /\ _ =>
            assert (t1 * r / 100 <= t2 * r / 100)
              by (apply tax_le; [lra | assumption])
        end; split; lra.
    + pose proof (tax_le (Walk.remainingIncome st1) (Walk.remainingIncome st2)
                         (TaxBracket.rate b) Hr Hrate').
      split; lra.
Qed.

Lemma walkBrackets_walkLe (A1 A2 : Q) (brackets : list TaxBracket.t) :
  forallb taxedBracket brackets = true ->
  forall st1 st2 : Walk.t,
    walkLe st1 st2 ->
    walkLe (walkBrackets A1 brackets st1) (walkBrackets A2 brackets st2).
Proof.
  induction brackets as [| b brackets IH]; intros Hall st1 st2 Hle.
  - exact Hle.
  - cbn [forallb] in Hall. apply andb_prop in Hall as [Hb Hall].
    change (walkLe (walkBrackets A1 brackets (bracketStep A1 st1 b))
                   (walkBrackets A2 brackets (bracketStep A2 st2 b))).
    apply IH; [assumption |]. now apply bracketStep_walkLe.
Qed.

(** The first turn of the walk over [PIT_BRACKETS], on the exempt band. *)
Lemma exempt_band_walkLe (A1 A2 : Q) :
  A1 <= A2 ->
  walkLe (bracketStep A1 (Walk.mk [] 0 A1) firstBracket)
         (bracketStep A2 (Walk.mk [] 0 A2) firstBracket).
Proof.
  intro H. unfold walkLe, bracketStep, PIT_EXEMPT_THRESHOLD.
  cbn [firstBracket PIT_BRACKETS nth TaxBracket.rate Walk.remainingIncome
       Walk.totalTax].
  change (Qeq_bool 0 0) with true. cbv iota.
  destruct (leb_spec A1 0); destruct (leb_spec A2 0);
    destruct (leb_spec A1 800000); destruct (leb_spec A2 800000);
    cbn [Walk.totalTax Walk.remainingIncome]; split; lra.
Qed.

Lemma walk_PIT_BRACKETS (A : Q) (st : Walk.t) :
  walkBrackets A PIT_BRACKETS st
  = walkBrackets A (tl PIT_BRACKETS) (bracketStep A st firstBracket).
Proof.
  unfold walkBrackets, firstBracket, PIT_BRACKETS.
  cbn [tl nth fold_left]. reflexivity.
Qed.

Lemma calculateProgressiveTax_le (A1 A2 : Q) :
  A1 <= A2 ->
  ProgressiveTax.totalTax (calculateProgressiveTax A1)
  <= ProgressiveTax.totalTax (calculateProgressiveTax A2).
Proof.
  intro H. unfold calculateProgressiveTax. cbn [ProgressiveTax.totalTax].
  rewrite !walk_PIT_BRACKETS.
  apply walkBrackets_walkLe; [vm_compute; reflexivity |].
  now apply exempt_band_walkLe.
Qed.

(** C3. [calculateProgressiveTax] is monotonic: for [0 <= A1 < A2] the
    total tax on [A1] is at most the total tax on [A2]. *)
Theorem calculateProgressiveTax_monotonic (A1 A2 : Q) :
  0 <= A1 -> A1 < A2 ->
  ProgressiveTax.totalTax (calculateProgressiveTax A1)
  <= ProgressiveTax.totalTax (calculateProgressiveTax A2).
Proof.
  intros _ H. unfold calculateProgressiveTax. cbn [ProgressiveTax.totalTax].
  rewrite !walk_PIT_BRACKETS.
  apply walkBrackets_walkLe; [vm_compute; reflexivity |].
  apply exempt_band_walkLe. lra.
Qed.

Lemma calculateProgressiveTax_monotonic_witness :
  (0 <= 1000000 /\ 1000000 < 4000000)
  /\ ProgressiveTax.totalTax (calculateProgressiveTax 1000000)
     <= ProgressiveTax.totalTax (calculateProgressiveTax 4000000).
Proof.
  split; [lra |].
  apply (calculateProgressiveTax_monotonic 1000000 4000000); lra.
Defined.

Example calculateProgressiveTax_samples :
  ProgressiveTax.totalTax (calculateProgressiveTax 0) == 0
  /\ ProgressiveTax.totalTax (calculateProgressiveTax 800000) == 0
  /\ ProgressiveTax.totalTax (calculateProgressiveTax 1000000) == 30000
  /\ ProgressiveTax.totalTax (calculateProgressiveTax 4000000) == 510000
  /\ ProgressiveTax.totalTax (calculateProgressiveTax 60000000) == 12930000.
Proof. repeat split; vm_compute; reflexivity. Qed.

(** ** Deductions and their limits *)

(** [applied] is the list of the deductions as limited, in order. *)
Lemma deduction_loop_applied (g : Q) (deductions : list Deduction.t) :
  forall st : Q * list AppliedDeduction.t,
    snd (fold_left (deductionStep g) deductions st)
    = snd st ++ map (applyLimits g) deductions.
Proof.
  induction deductions as [| d deductions IH]; intro st; cbn [fold_left map].
  - now rewrite app_nil_r.
  - rewrite IH. unfold deductionStep. cbn [snd].
    now rewrite <- app_assoc.
Qed.

Lemma calculateDeductions_applied (deductions : list Deduction.t) (g : Q) :
  snd (calculateDeductions deductions g) = map (applyLimits g) deductions.
Proof.
  unfold calculateDeductions.
  pose proof (deduction_loop_applied g deductions (0, [])) as H.
  destruct (fold_left (deductionStep g) deductions (0, [])) as [total applied].
  exact H.
Qed.

Lemma calculateDeductions_total_le (deductions : list Deduction.t) (g : Q) :
  fst (calculateDeductions deductions g) <= g.
Proof.
  unfold calculateDeductions.
  destruct (fold_left (deductionStep g) deductions (0, [])) as [total applied].
  cbn [fst]. destruct (gtb_spec total g); lra.
Qed.

Lemma applyLimits_type (g : Q) (d : Deduction.t) :
  AppliedDeduction.type (applyLimits g d) = Deduction.type d.
Proof.
  unfold applyLimits.
  repeat match goal with
         | |- context [if ?c then _ else _] => destruct c
         end; reflexivity.
Qed.

(** What a single deduction is counted for, by category. *)
Lemma applyLimits_pension (g : Q) (d : Deduction.t) :
  Deduction.type d = "pension"%string ->
  AppliedDeduction.amount (applyLimits g d) <= g * 0.08.
Proof.
  intro E. unfold applyLimits. rewrite E.
  cbn [String.eqb Ascii.eqb Bool.eqb andb].
  destruct (gtb_spec (Deduction.amount d) (g * 0.08));
    cbn [AppliedDeduction.amount]; lra.
Qed.

Lemma applyLimits_rent_relief (g : Q) (d : Deduction.t) :
  Deduction.type d = "rent_relief"%string ->
  AppliedDeduction.amount (applyLimits g d) <= RENT_RELIEF_MAX.
Proof.
  intro E. unfold applyLimits. rewrite E.
  cbn [String.eqb Ascii.eqb Bool.eqb andb].
  destruct (gtb_spec (Deduction.amount d) RENT_RELIEF_MAX);
    cbn [AppliedDeduction.amount]; lra.
Qed.

Lemma applyLimits_job_loss (g : Q) (d : Deduction.t) :
  Deduction.type d = "job_loss"%string ->
  AppliedDeduction.amount (applyLimits g d)
  <= JOB_LOSS_COMPENSATION_EXEMPT_LIMIT.
Proof.
  intro E. unfold applyLimits. rewrite E.
  cbn [String.eqb Ascii.eqb Bool.eqb andb].
  destruct (gtb_spec (Deduction.amount d) JOB_LOSS_COMPENSATION_EXEMPT_LIMIT);
    cbn [AppliedDeduction.amount]; lra.
Qed.

Lemma applyLimits_withinLimit (g : Q) (d : Deduction.t) :
  withinLimit (AppliedDeduction.amount (applyLimits g d))
              (categoryLimit (Deduction.type d) g).
Proof.
  unfold categoryLimit.
  destruct (String.eqb_spec (Deduction.type d) "pension") as [E | _];
    [now apply applyLimits_pension |].
  destruct (String.eqb_spec (Deduction.type d) "rent_relief") as [E | _];
    [now apply applyLimits_rent_relief |].
  destruct (String.eqb_spec (Deduction.type d) "job_loss") as [E | _];
    [now apply applyLimits_job_loss | exact I].
Qed.

Lemma categoryTotal_from (type : string) (applied : list AppliedDeduction.t) :
  forall s : Q,
    fold_left
      (fun s a =>
         if String.eqb (AppliedDeduction.type a) type
         then s + AppliedDeduction.amount a else s)
      applied s
    == s + categoryTotal type applied.
Proof.
  unfold categoryTotal.
  induction applied as [| a applied IH]; intro s; cbn [fold_left].
  - ring.
  - rewrite (IH (if String.eqb (AppliedDeduction.type a) type
                 then s + AppliedDeduction.amount a else s)),
            (IH (if String.eqb (AppliedDeduction.type a) type
                 then 0 + AppliedDeduction.amount a else 0)).
    destruct (String.eqb (AppliedDeduction.type a) type); ring.
Qed.

Lemma categoryTotal_cons (type : string) (a : AppliedDeduction.t)
  (applied : list AppliedDeduction.t) :
  categoryTotal type (a :: applied)
  == (if String.eqb (AppliedDeduction.type a) type
      then AppliedDeduction.amount a else 0)
     + categoryTotal type applied.
Proof.
  unfold categoryTotal at 1. cbn [fold_left]. rewrite categoryTotal_from.
  destruct (String.eqb (AppliedDeduction.type a) type); ring.
Qed.

Lemma categoryTotal_absent (type : string) (g : Q)
  (deductions : list Deduction.t) :
  countType type deductions = 0%nat ->
  categoryTotal type (map (applyLimits g) deductions) == 0.
Proof.
  unfold countType.
  induction deductions as [| d deductions IH]; cbn [filter map]; intro H.
  - reflexivity.
  - rewrite categoryTotal_cons, applyLimits_type.
    destruct (String.eqb (Deduction.type d) type); [discriminate |].
    rewrite (IH H). ring.
Qed.

(** With at most one deduction of a type, the total counted for the type
    is what that deduction is counted for, or nothing. *)
Lemma categoryTotal_single (type : string) (g : Q)
  (deductions : list Deduction.t) :
  (countType type deductions <= 1)%nat ->
  categoryTotal type (map (applyLimits g) deductions) == 0
  \/ exists d, In d deductions /\ Deduction.type d = type
               /\ categoryTotal type (map (applyLimits g) deductions)
                  == AppliedDeduction.amount (applyLimits g d).
Proof.
  induction deductions as [| d deductions IH]; intro H.
  - left. reflexivity.
  - unfold countType in H. cbn [filter] in H.
    destruct (String.eqb_spec (Deduction.type d) type) as [E | NE].
    + right. exists d. split; [now left | split; [assumption |]].
      cbn [map]. rewrite categoryTotal_cons, applyLimits_type.
      rewrite (proj2 (String.eqb_eq _ _) E).
      rewrite categoryTotal_absent; [ring |].
      cbn [List.length] in H. unfold countType. lia.
    + destruct (IH H) as [Z | [d' [Hin [Ht Hd']]]].
      * left. cbn [map]. rewrite categoryTotal_cons, applyLimits_type.
        rewrite (proj2 (String.eqb_neq _ _) NE), Z. ring.
      * right. exists d'. split; [now right | split; [assumption |]].
        cbn [map]. rewrite categoryTotal_cons, applyLimits_type.
        rewrite (proj2 (String.eqb_neq _ _) NE), Hd'. ring.
Qed.

(** The limits of the three capped categories hold for the total of a
    category whenever the list has at most one deduction of it. *)
Lemma categoryTotal_capped_when_single (type : string) (g : Q)
  (deductions : list Deduction.t) :
  0 <= g ->
  (countType type deductions <= 1)%nat ->
  withinLimit (categoryTotal type (map (applyLimits g) deductions))
              (categoryLimit type g).
Proof.
  intros Hg H.
  destruct (categoryTotal_single type g deductions H)
    as [Z | [d [_ [Ht E]]]].
  - unfold categoryLimit, withinLimit,
      RENT_RELIEF_MAX, JOB_LOSS_COMPENSATION_EXEMPT_LIMIT.
    repeat match goal with
           | |- context [if ?c then _ else _] => destruct c
           end; try exact I; rewrite Z; lra.
  - pose proof (applyLimits_withinLimit g d) as L. rewrite Ht in L.
    unfold withinLimit in *. destruct (categoryLimit type g); [| exact I].
    rewrite E. exact L.
Qed.

Example twoPensions_counted :
  categoryTotal "pension" (snd (calculateDeductions twoPensions 1000000))
  == 160000
  /\ fst (calculateDeductions twoPensions 1000000) == 160000.
Proof. split; vm_compute; reflexivity. Qed.

(** With two deductions of the pension category the amount counted for
    the category is 160,000, twice the 8% of the gross income of
    1,000,000. *)
Lemma category_totals_not_capped :
  0 <= 1000000 /\ ~ categoryTotalsCapped twoPensions 1000000.
Proof.
  split; [lra |].
  intros [H _]. vm_compute in H. apply H. reflexivity.
Qed.

(** C5. Capping by category is not what [calculateDeductions] does when a
    category is entered twice: of two rows of rent relief of 600,000 each
    is cut to [RENT_RELIEF_MAX] and both are counted, 1,000,000 of rent
    relief against a maximum of 500,000, and [calculatePIT] deducts the
    1,000,000. *)
Theorem rent_relief_counted_twice :
  let applied := snd (calculateDeductions twoRentReliefs 5000000) in
  let r := @calculatePIT plainDigits fiveMillionSalary twoRentReliefs true in
  map AppliedDeduction.capped applied = [true; true]
  /\ categoryTotal "rent_relief" applied == 1000000
  /\ RENT_RELIEF_MAX < categoryTotal "rent_relief" applied
  /\ PITResult.grossIncome r == 5000000
  /\ PITResult.totalDeductions r == 1000000
  /\ PITResult.taxableIncome r == 4000000
  /\ ~ categoryTotalsCapped twoRentReliefs 5000000.
Proof.
  cbv zeta.
  split; [vm_compute; reflexivity |].
  split; [vm_compute; reflexivity |].
  split; [vm_compute; reflexivity |].
  split; [vm_compute; reflexivity |].
  split; [vm_compute; reflexivity |].
  split; [vm_compute; reflexivity |].
  intros [_ [H _]]. vm_compute in H. apply H. reflexivity.
Qed.

(** What the limits do guarantee.  For every list of deductions and every
    gross income [>= 0]: each single deduction is counted for at most the
    limit of its category (8% of the gross income for a pension,
    [RENT_RELIEF_MAX] for rent relief,
    [JOB_LOSS_COMPENSATION_EXEMPT_LIMIT] for job loss); the total counted
    for one of these categories is within the limit when the list holds at
    most one deduction of the category; and the total of the deductions
    never exceeds the gross income. *)
Lemma calculateDeductions_limits (deductions : list Deduction.t)
  (grossIncome : Q) :
  0 <= grossIncome ->
  let total := fst (calculateDeductions deductions grossIncome) in
  let applied := snd (calculateDeductions deductions grossIncome) in
  (forall a, In a applied ->
     (AppliedDeduction.type a = "pension"%string ->
      AppliedDeduction.amount a <= grossIncome * 0.08)
     /\ (AppliedDeduction.type a = "rent_relief"%string ->
         AppliedDeduction.amount a <= RENT_RELIEF_MAX)
     /\ (AppliedDeduction.type a = "job_loss"%string ->
         AppliedDeduction.amount a <= JOB_LOSS_COMPENSATION_EXEMPT_LIMIT))
  /\ ((countType "pension" deductions <= 1)%nat ->
      categoryTotal "pension" applied <= grossIncome * 0.08)
  /\ ((countType "rent_relief" deductions <= 1)%nat ->
      categoryTotal "rent_relief" applied <= RENT_RELIEF_MAX)
  /\ ((countType "job_loss" deductions <= 1)%nat ->
      categoryTotal "job_loss" applied <= JOB_LOSS_COMPENSATION_EXEMPT_LIMIT)
  /\ total <= grossIncome.
Proof.
  intros Hg total applied. subst total applied.
  rewrite calculateDeductions_applied.
  split; [| repeat split].
  - intros a Ha. apply in_map_iff in Ha as [d [<- _]].
    rewrite applyLimits_type.
    repeat split; intro E.
    + now apply applyLimits_pension.
    + now apply applyLimits_rent_relief.
    + now apply applyLimits_job_loss.
  - intro H.
    exact (categoryTotal_capped_when_single "pension" _ _ Hg H).
  - intro H.
    exact (categoryTotal_capped_when_single "rent_relief" _ _ Hg H).
  - intro H.
    exact (categoryTotal_capped_when_single "job_loss" _ _ Hg H).
  - apply calculateDeductions_total_le.
Qed.

Lemma calculateDeductions_limits_witness :
  (0 <= 7000000 /\ (countType "pension" pensionAndRent <= 1)%nat)
  /\ categoryTotal "pension"
       (snd (calculateDeductions pensionAndRent 7000000))
     <= 7000000 * 0.08.
Proof.
  assert (Hg : 0 <= 7000000) by lra.
  assert (Hc : (countType "pension" pensionAndRent <= 1)%nat)
    by (vm_compute; lia).
  split; [split; assumption |].
  exact (proj1 (proj2 (calculateDeductions_limits pensionAndRent 7000000 Hg))
               Hc).
Defined.

(** ** Personal income tax *)

Section pitProperties.
Context {host : Locale}.

Lemma calculatePIT_totalDeductions (incomeSources : list IncomeSource.t)
  (deductions : list Deduction.t) (isResident : bool) :
  PITResult.totalDeductions (calculatePIT incomeSources deductions isResident)
  = fst (calculateDeductions deductions (calculateGrossIncome incomeSources)).
Proof.
  unfold calculatePIT.
  destruct (leb _ PIT_EXEMPT_THRESHOLD); reflexivity.
Qed.

Lemma calculatePIT_taxableIncome (incomeSources : list IncomeSource.t)
  (deductions : list Deduction.t) (isResident : bool) :
  PITResult.taxableIncome (calculatePIT incomeSources deductions isResident)
  = Math.max 0
      (calculateGrossIncome incomeSources
       - fst (calculateDeductions deductions
                (calculateGrossIncome incomeSources))).
Proof.
  unfold calculatePIT.
  destruct (leb _ PIT_EXEMPT_THRESHOLD); reflexivity.
Qed.

(** The invariants of [PITResult]: the total is the sum of the breakdown,
    and the net take-home is what is left of the gross income. *)
Lemma calculatePIT_invariants (incomeSources : list IncomeSource.t)
  (deductions : list Deduction.t) (isResident : bool) :
  let r := calculatePIT incomeSources deductions isResident in
  PITResult.totalTax r == sumTaxForBracket (PITResult.bracketBreakdown r)
  /\ PITResult.netTakeHome r
     == PITResult.grossIncome r - PITResult.totalDeductions r
        - PITResult.totalTax r.
Proof.
  unfold calculatePIT.
  destruct (leb _ PIT_EXEMPT_THRESHOLD);
    cbn [PITResult.totalTax PITResult.bracketBreakdown PITResult.netTakeHome
         PITResult.grossIncome PITResult.totalDeductions].
  - split; [reflexivity | ring].
  - destruct isResident;
      (split; [apply totalTax_is_breakdown_sum | reflexivity]).
Qed.

Lemma calculatePIT_exempt (incomeSources : list IncomeSource.t)
  (deductions : list Deduction.t) (isResident : bool) :
  PITResult.taxableIncome (calculatePIT incomeSources deductions isResident)
  <= 800000 ->
  PITResult.totalTax (calculatePIT incomeSources deductions isResident) == 0
  /\ PITResult.isExempt (calculatePIT incomeSources deductions isResident)
     = true.
Proof.
  unfold calculatePIT, PIT_EXEMPT_THRESHOLD.
  destruct (leb_spec
              (Math.max 0
                 (calculateGrossIncome incomeSources
                  - fst (calculateDeductions deductions
                           (calculateGrossIncome incomeSources))))
              800000) as [Hle | Hgt];
    cbn [PITResult.taxableIncome PITResult.totalTax PITResult.isExempt];
    intro H.
  - split; reflexivity.
  - lra.
Qed.

(** C9. The [isResident] flag does not interfere: [calculatePIT] returns
    the same record, field for field, for a resident and a non-resident. *)
Theorem calculatePIT_isResident_irrelevant
  (incomeSources : list IncomeSource.t) (deductions : list Deduction.t) :
  calculatePIT incomeSources deductions true
  = calculatePIT incomeSources deductions false.
Proof. unfold calculatePIT. cbv iota. reflexivity. Qed.

End pitProperties.

(** ** Corporate income tax *)

Section citProperties.
Context {host : Locale}.

Lemma determineCompanySize_small (turnover : Q) :
  turnover <= 100000000 -> determineCompanySize turnover = small.
Proof.
  intro H. unfold determineCompanySize, SMALL_COMPANY_TURNOVER_LIMIT.
  now rewrite leb_true.
Qed.

Lemma determineCompanySize_other (turnover : Q) :
  100000000 < turnover -> determineCompanySize turnover = other.
Proof.
  intro H. unfold determineCompanySize, SMALL_COMPANY_TURNOVER_LIMIT.
  now rewrite leb_false.
Qed.

Lemma calculateCIT_companySize (input : CITInput.t) :
  CITResult.companySize (calculateCIT input)
  = determineCompanySize (CITInput.turnover input).
Proof.
  unfold calculateCIT.
  destruct (determineCompanySize (CITInput.turnover input)); reflexivity.
Qed.

Lemma calculateCIT_small_turnover (input : CITInput.t) :
  CITInput.turnover input <= 100000000 ->
  CITResult.citAmount (calculateCIT input) == 0
  /\ CITResult.developmentLevy (calculateCIT input) == 0
  /\ CITResult.minimumTaxTopUp (calculateCIT input) == 0
  /\ CITResult.cfcTax (calculateCIT input) == 0
  /\ CITResult.totalTaxPayable (calculateCIT input) == 0.
Proof.
  intro H. unfold calculateCIT.
  rewrite (determineCompanySize_small _ H).
  repeat split; reflexivity.
Qed.

(** C7. For every result of [calculateCIT], [totalTaxPayable] is the sum
    of [citAmount], [developmentLevy], [minimumTaxTopUp] and [cfcTax], and
    the four components are zero when [companySize] is [small]. *)
Theorem calculateCIT_total_is_sum (input : CITInput.t) :
  let r := calculateCIT input in
  CITResult.totalTaxPayable r
  == CITResult.citAmount r + CITResult.developmentLevy r
     + CITResult.minimumTaxTopUp r + CITResult.cfcTax r
  /\ (CITResult.companySize r = small ->
      CITResult.citAmount r == 0
      /\ CITResult.developmentLevy r == 0
      /\ CITResult.minimumTaxTopUp r == 0
      /\ CITResult.cfcTax r == 0).
Proof.
  unfold calculateCIT.
  destruct (determineCompanySize (CITInput.turnover input)).
  - split; [reflexivity | intros _; repeat split; reflexivity].
  - unfold calculateOtherCompanyCIT.
    cbn [CITResult.totalTaxPayable CITResult.citAmount CITResult.companySize
         CITResult.developmentLevy CITResult.minimumTaxTopUp CITResult.cfcTax].
    split; [reflexivity | discriminate].
Qed.

(** The rate [calculateMinimumTaxTopUp] computes for the tax of
    [calculateOtherCompanyCIT] before the top-up is 34. *)
Lemma rate_before_top_up (p : Q) :
  0 < p ->
  ((p * CIT_RATE / 100 + p * DEVELOPMENT_LEVY_RATE / 100) / p) * 100 == 34.
Proof. intro H. unfold CIT_RATE, DEVELOPMENT_LEVY_RATE. field. lra. Qed.

Lemma no_top_up_at_flat_rates (p : Q) (isSubjectToMETR : bool) :
  calculateMinimumTaxTopUp p
    (p * CIT_RATE / 100 + p * DEVELOPMENT_LEVY_RATE / 100) isSubjectToMETR
  == 0.
Proof.
  unfold calculateMinimumTaxTopUp.
  destruct isSubjectToMETR; cbn [negb orb]; [| reflexivity].
  destruct (leb_spec p 0) as [Hle | Hgt]; [reflexivity |].
  rewrite leb_true; [reflexivity |].
  rewrite (rate_before_top_up p Hgt). unfold MINIMUM_EFFECTIVE_TAX_RATE. lra.
Qed.

(** C10. For every input with a turnover above 100,000,000 and assessable
    profits [>= 0], the [minimumTaxTopUp] returned by [calculateCIT] is 0:
    the rate before the top-up is 34, above the minimum of 15. *)
Theorem calculateCIT_no_top_up (input : CITInput.t) :
  100000000 < CITInput.turnover input ->
  0 <= CITInput.assessableProfits input ->
  CITResult.minimumTaxTopUp (calculateCIT input) == 0.
Proof.
  intros Ht _. unfold calculateCIT.
  rewrite (determineCompanySize_other _ Ht).
  unfold calculateOtherCompanyCIT. cbn [CITResult.minimumTaxTopUp].
  apply no_top_up_at_flat_rates.
Qed.

End citProperties.

Lemma calculateCIT_no_top_up_witness :
  CITResult.minimumTaxTopUp
    (@calculateCIT plainDigits
       (CITInput.mk 200000000 10000000 multinational true None None))
  == 0.
Proof.
  apply (@calculateCIT_no_top_up plainDigits
           (CITInput.mk 200000000 10000000 multinational true None None));
    cbn [CITInput.turnover CITInput.assessableProfits]; lra.
Defined.

(** ** Capital gains tax *)

Section cgtProperties.
Context {host : Locale}.

Lemma calculateCGT_capitalGain (input : CGTInput.t) :
  CGTResult.capitalGain (calculateCGT input)
  = Math.max 0 (CGTInput.saleProceeds input - calculateTotalCosts input).
Proof.
  unfold calculateCGT, calculateCompanyCGT, calculateIndividualCGT.
  cbv zeta.
  destruct (CGTInput.taxpayerType input).
  - destruct (leb _ 800000); cbn [CGTResult.capitalGain]; reflexivity.
  - destruct (CGTInput.companyTurnover input) as [t |];
      [destruct (leb t SMALL_COMPANY_TURNOVER_LIMIT) |];
      cbn [CGTResult.capitalGain]; reflexivity.
Qed.

Lemma calculateCGT_netProceeds (input : CGTInput.t) :
  CGTResult.netProceeds (calculateCGT input)
  == CGTResult.saleProceeds (calculateCGT input)
     - CGTResult.cgtAmount (calculateCGT input).
Proof.
  unfold calculateCGT, calculateCompanyCGT, calculateIndividualCGT.
  cbv zeta.
  destruct (CGTInput.taxpayerType input).
  - destruct (leb _ 800000);
      cbn [CGTResult.netProceeds CGTResult.saleProceeds CGTResult.cgtAmount];
      [ring | apply Qeq_refl].
  - destruct (CGTInput.companyTurnover input) as [t |];
      [destruct (leb t SMALL_COMPANY_TURNOVER_LIMIT) |];
      cbn [CGTResult.netProceeds CGTResult.saleProceeds CGTResult.cgtAmount];
      ring.
Qed.

Lemma calculateCGT_individual_exempt (input : CGTInput.t) :
  CGTInput.taxpayerType input = individual ->
  CGTResult.capitalGain (calculateCGT input) <= 800000 ->
  CGTResult.cgtAmount (calculateCGT input) == 0
  /\ CGTResult.isExempt (calculateCGT input) = true.
Proof.
  intro Hi. rewrite calculateCGT_capitalGain. intro Hg.
  unfold calculateCGT. rewrite Hi. unfold calculateIndividualCGT.
  cbv zeta. rewrite (leb_true _ _ Hg).
  cbn [CGTResult.cgtAmount CGTResult.isExempt]. split; reflexivity.
Qed.

Lemma calculateCGT_small_company (input : CGTInput.t) (companyTurnover : Q) :
  CGTInput.taxpayerType input = company ->
  CGTInput.companyTurnover input = Some companyTurnover ->
  companyTurnover <= 100000000 ->
  CGTResult.cgtAmount (calculateCGT input) == 0.
Proof.
  intros Hc Ht Hle. unfold calculateCGT. rewrite Hc.
  unfold calculateCompanyCGT, SMALL_COMPANY_TURNOVER_LIMIT.
  cbv zeta. rewrite Ht, (leb_true _ _ Hle).
  cbn [CGTResult.cgtAmount]. reflexivity.
Qed.

(** The gain that reaches the bracket walk is above the threshold, and the
    rate of the taxed individual path is taken on the gain. *)
Lemma calculateCGT_individual_taxed (input : CGTInput.t) :
  CGTInput.taxpayerType input = individual ->
  CGTResult.isExempt (calculateCGT input) = false ->
  800000 < CGTResult.capitalGain (calculateCGT input)
  /\ CGTResult.cgtAmount (calculateCGT input)
     = ProgressiveTax.totalTax
         (calculateProgressiveTax (CGTResult.capitalGain (calculateCGT input)))
  /\ CGTResult.effectiveRate (calculateCGT input)
     == CGTResult.cgtAmount (calculateCGT input)
        / CGTResult.capitalGain (calculateCGT input) * 100.
Proof.
  intro Hi. unfold calculateCGT. rewrite Hi. unfold calculateIndividualCGT.
  cbv zeta.
  destruct (leb_spec
              (Math.max 0
                 (CGTInput.saleProceeds input - calculateTotalCosts input))
              800000) as [Hle | Hgt];
    cbn [CGTResult.isExempt CGTResult.capitalGain CGTResult.cgtAmount
         CGTResult.effectiveRate]; intro H; [discriminate |].
  split; [assumption | split; [reflexivity |]].
  rewrite gtb_true; [reflexivity | lra].
Qed.

Lemma zero_rateOnProceeds (s : Q) :
  0 == (if Qeq_bool s 0 then 0 else 0 / s * 100).
Proof. destruct (Qeq_bool s 0); [reflexivity |]. unfold Qdiv. ring. Qed.

(** C1 (as amended). For every input with sale proceeds [>= 0]: on the
    company path, the small-company path and the exempt individual path,
    [effectiveRate] is [cgtAmount / saleProceeds * 100] ([0] when
    [saleProceeds] is [0]); on the taxed individual path it is
    [cgtAmount / capitalGain * 100]. *)
Theorem calculateCGT_effectiveRate (input : CGTInput.t) :
  0 <= CGTInput.saleProceeds input ->
  let r := calculateCGT input in
  match CGTResult.taxpayerType r, CGTResult.isExempt r with
  | individual, false => CGTResult.effectiveRate r == rateOnGain r
  | _, _ => CGTResult.effectiveRate r == rateOnProceeds r
  end.
Proof.
  intros Hs r. subst r. unfold rateOnGain, rateOnProceeds.
  unfold calculateCGT, calculateCompanyCGT, calculateIndividualCGT.
  cbv zeta.
  destruct (CGTInput.taxpayerType input).
  - destruct (leb_spec
                (Math.max 0
                   (CGTInput.saleProceeds input - calculateTotalCosts input))
                800000) as [Hle | Hgt];
      cbn [CGTResult.taxpayerType CGTResult.isExempt CGTResult.effectiveRate
           CGTResult.cgtAmount CGTResult.saleProceeds CGTResult.capitalGain].
    + apply zero_rateOnProceeds.
    + rewrite gtb_true; [reflexivity | lra].
  - destruct (CGTInput.companyTurnover input) as [t |];
      [destruct (leb t SMALL_COMPANY_TURNOVER_LIMIT) |];
      cbn [CGTResult.taxpayerType CGTResult.isExempt CGTResult.effectiveRate
           CGTResult.cgtAmount CGTResult.saleProceeds CGTResult.capitalGain];
      try apply zero_rateOnProceeds;
      (destruct (gtb_spec (CGTInput.saleProceeds input) 0) as [Hpos | Hnpos];
       [ rewrite (Qeq_bool_0_pos _ Hpos)
       | rewrite (Qeq_bool_0_nonpos _ Hs Hnpos) ]; reflexivity).
Qed.

End cgtProperties.

Example saleByIndividual_result :
  let r := @calculateCGT plainDigits saleByIndividual in
  CGTResult.capitalGain r == 1500000
  /\ CGTResult.cgtAmount r == 105000
  /\ CGTResult.effectiveRate r == 7
  /\ rateOnProceeds r == 5.25.
Proof. repeat split; vm_compute; reflexivity. Qed.

(** C1 (counterexample to the rate on the sale proceeds in all paths).
    On the taxed individual path the rate is taken on the capital gain:
    for an individual selling for 2,000,000 what cost 500,000 it is 7,
    while [cgtAmount / saleProceeds * 100] is 5.25. *)
Lemma effectiveRate_not_on_proceeds :
  0 <= CGTInput.saleProceeds saleByIndividual
  /\ ~ CGTResult.effectiveRate (@calculateCGT plainDigits saleByIndividual)
       == rateOnProceeds (@calculateCGT plainDigits saleByIndividual).
Proof.
  split; [cbn [saleByIndividual CGTInput.saleProceeds]; lra |].
  vm_compute. discriminate.
Qed.

Lemma calculateCGT_effectiveRate_witness :
  0 <= CGTInput.saleProceeds saleByIndividual
  /\ CGTResult.effectiveRate (@calculateCGT plainDigits saleByIndividual)
     == rateOnGain (@calculateCGT plainDigits saleByIndividual).
Proof.
  assert (H : 0 <= CGTInput.saleProceeds saleByIndividual)
    by (cbn [saleByIndividual CGTInput.saleProceeds]; lra).
  split; [exact H |].
  exact (@calculateCGT_effectiveRate plainDigits saleByIndividual H).
Defined.

(** ** Exemptions across the calculators *)

Section exemptions.
Context {host : Locale}.

(** C4. When the taxable amount is at most the exempt threshold of
    800,000 - the taxable income for [calculatePIT], the capital gain for
    the individual path of [calculateCGT] - the tax is 0 and the result is
    marked exempt. *)
Theorem exempt_up_to_threshold (incomeSources : list IncomeSource.t)
  (deductions : list Deduction.t) (isResident : bool) (input : CGTInput.t) :
  (PITResult.taxableIncome (calculatePIT incomeSources deductions isResident)
   <= 800000 ->
   PITResult.totalTax (calculatePIT incomeSources deductions isResident) == 0
   /\ PITResult.isExempt (calculatePIT incomeSources deductions isResident)
      = true)
  /\ (CGTInput.taxpayerType input = individual ->
      CGTResult.capitalGain (calculateCGT input) <= 800000 ->
      CGTResult.cgtAmount (calculateCGT input) == 0
      /\ CGTResult.isExempt (calculateCGT input) = true).
Proof.
  split.
  - apply calculatePIT_exempt.
  - apply calculateCGT_individual_exempt.
Qed.

(** C6. With a turnover of at most 100,000,000, [calculateCIT] returns 0
    for the tax, the development levy, the top-up, the tax on foreign
    profits and the total, whatever the profits and the other inputs; and
    [calculateCGT] returns a tax of 0 for a company whose turnover is given
    and is at most 100,000,000, whatever the gain. *)
Theorem small_company_pays_nothing (cit : CITInput.t) (cgt : CGTInput.t)
  (companyTurnover : Q) :
  (CITInput.turnover cit <= 100000000 ->
   CITResult.citAmount (calculateCIT cit) == 0
   /\ CITResult.developmentLevy (calculateCIT cit) == 0
   /\ CITResult.minimumTaxTopUp (calculateCIT cit) == 0
   /\ CITResult.cfcTax (calculateCIT cit) == 0
   /\ CITResult.totalTaxPayable (calculateCIT cit) == 0)
  /\ (CGTInput.taxpayerType cgt = company ->
      CGTInput.companyTurnover cgt = Some companyTurnover ->
      companyTurnover <= 100000000 ->
      CGTResult.cgtAmount (calculateCGT cgt) == 0).
Proof.
  split.
  - apply calculateCIT_small_turnover.
  - apply calculateCGT_small_company.
Qed.

End exemptions.

Lemma exempt_up_to_threshold_witness :
  (PITResult.totalTax (@calculatePIT plainDigits halfMillionSalary [] true)
   == 0
   /\ PITResult.isExempt (@calculatePIT plainDigits halfMillionSalary [] true)
      = true)
  /\ (CGTResult.cgtAmount (@calculateCGT plainDigits smallGain) == 0
      /\ CGTResult.isExempt (@calculateCGT plainDigits smallGain) = true).
Proof.
  destruct (@exempt_up_to_threshold plainDigits halfMillionSalary [] true
              smallGain) as [P G].
  split.
  - apply P. vm_compute. discriminate.
  - apply G; [reflexivity | vm_compute; discriminate].
Defined.

Lemma small_company_pays_nothing_witness :
  CITResult.totalTaxPayable (@calculateCIT plainDigits smallCompanyProfits)
  == 0
  /\ CGTResult.cgtAmount (@calculateCGT plainDigits smallCompanySale) == 0.
Proof.
  destruct (@small_company_pays_nothing plainDigits smallCompanyProfits
              smallCompanySale 100000000) as [P G].
  split.
  - apply P. cbn [smallCompanyProfits CITInput.turnover]. lra.
  - apply G; [reflexivity | reflexivity | lra].
Defined.

(** ** Value added tax *)




(** The relative tolerance on the binary64 numbers of the source, at the
    amount that misses the absolute one and at amounts of other sizes. *)
Example round_trip_within_relative_tolerance :
  forallb
    (fun N =>
       Binary64.within (PrimFloat.mul 1e-6%float N) (Binary64.roundTrip N) N)
    [0%float; 0.01%float; 1000%float; 99999.99%float; 707446651%float;
     12345678901%float; 12345678901.23%float; 9007199254740991%float;
     1e300%float]
  = true.
Proof. vm_compute. reflexivity. Qed.

(** ** The bracket walk: itemization *)

Lemma walkBrackets_cons (A : Q) (b : TaxBracket.t)
  (brackets : list TaxBracket.t) (st : Walk.t) :
  walkBrackets A (b :: brackets) st
  = walkBrackets A brackets (bracketStep A st b).
Proof. reflexivity. Qed.

Lemma walkBrackets_app (A : Q) (l1 l2 : list TaxBracket.t) (st : Walk.t) :
  walkBrackets A (l1 ++ l2) st = walkBrackets A l2 (walkBrackets A l1 st).
Proof. unfold walkBrackets. apply fold_left_app. Qed.

(** Every turn of the loop pushes one entry, for the bracket of the turn. *)
Lemma bracketStep_pushes (A : Q) (st : Walk.t) (b : TaxBracket.t) :
  exists e,
    Walk.breakdown (bracketStep A st b) = Walk.breakdown st ++ [e]
    /\ BracketBreakdown.bracket e = b.
Proof.
  unfold bracketStep.
  destruct (leb (Walk.remainingIncome st) 0);
    [| destruct (Qeq_bool (TaxBracket.rate b) 0);
       [destruct (leb A PIT_EXEMPT_THRESHOLD) |]];
    cbn [Walk.breakdown]; eexists; split; reflexivity.
Qed.

Lemma walkBrackets_lists_brackets (A : Q) (brackets : list TaxBracket.t) :
  forall st : Walk.t,
    map BracketBreakdown.bracket (Walk.breakdown (walkBrackets A brackets st))
    = map BracketBreakdown.bracket (Walk.breakdown st) ++ brackets.
Proof.
  induction brackets as [| b brackets IH]; intro st.
  - cbn [walkBrackets fold_left]. now rewrite app_nil_r.
  - rewrite walkBrackets_cons, IH.
    destruct (bracketStep_pushes A st b) as [e [-> <-]].
    rewrite map_app, <- app_assoc. reflexivity.
Qed.

(** X1. Whatever the amount, the breakdown returned by
    [calculateProgressiveTax] has exactly one entry for each bracket of
    [PIT_BRACKETS], in the order of the table. *)
Theorem calculateProgressiveTax_lists_brackets (A : Q) :
  map BracketBreakdown.bracket
      (ProgressiveTax.breakdown (calculateProgressiveTax A))
  = PIT_BRACKETS.
Proof.
  unfold calculateProgressiveTax. cbn [ProgressiveTax.breakdown].
  rewrite walkBrackets_lists_brackets. reflexivity.
Qed.

Lemma sumTaxableInBracket_push (l : list BracketBreakdown.t)
  (b : BracketBreakdown.t) :
  sumTaxableInBracket (l ++ [b])
  = sumTaxableInBracket l + BracketBreakdown.taxableInBracket b.
Proof. unfold sumTaxableInBracket. now rewrite fold_left_app. Qed.

(** Every entry the loop pushes carries the tax of its taxable part at
    the rate of its bracket. *)
Lemma bracketStep_taxedAtRate (A : Q) (st : Walk.t) (b : TaxBracket.t) :
  Forall taxedAtRate (Walk.breakdown st) ->
  Forall taxedAtRate (Walk.breakdown (bracketStep A st b)).
Proof.
  intro H. unfold bracketStep.
  destruct (leb (Walk.remainingIncome st) 0);
    [| destruct (Qeq_bool (TaxBracket.rate b) 0) eqn:E;
       [apply Qeq_bool_iff in E; destruct (leb A PIT_EXEMPT_THRESHOLD) |]];
    cbn [Walk.breakdown]; apply Forall_app; (split; [exact H |]);
    constructor; try constructor; unfold taxedAtRate;
    cbn [BracketBreakdown.taxForBracket BracketBreakdown.taxableInBracket
         BracketBreakdown.bracket];
    try rewrite E; try reflexivity; unfold Qdiv; ring.
Qed.

Lemma walkBrackets_taxedAtRate (A : Q) (brackets : list TaxBracket.t) :
  forall st : Walk.t,
    Forall taxedAtRate (Walk.breakdown st) ->
    Forall taxedAtRate (Walk.breakdown (walkBrackets A brackets st)).
Proof.
  induction brackets as [| b brackets IH]; intros st H.
  - exact H.
  - rewrite walkBrackets_cons. apply IH. now apply bracketStep_taxedAtRate.
Qed.

(** On a taxed bracket, what is put in the bracket is taken from the
    remaining income, which does not become negative. *)
Lemma bracketStep_allocates (A : Q) (st : Walk.t) (b : TaxBracket.t) :
  taxedBracket b = true ->
  0 <= Walk.remainingIncome st ->
  0 <= Walk.remainingIncome (bracketStep A st b)
  /\ sumTaxableInBracket (Walk.breakdown (bracketStep A st b))
     + Walk.remainingIncome (bracketStep A st b)
     == sumTaxableInBracket (Walk.breakdown st) + Walk.remainingIncome st.
Proof.
  unfold taxedBracket. intros Hb Hr.
  apply andb_prop in Hb as [Hb Hsize]. apply andb_prop in Hb as [Hne _].
  apply negb_true_iff in Hne.
  unfold bracketStep. rewrite Hne.
  destruct (leb_spec (Walk.remainingIncome st) 0) as [H0 | H0];
    cbn [Walk.breakdown Walk.remainingIncome];
    rewrite sumTaxableInBracket_push;
    cbn [BracketBreakdown.taxableInBracket].
  - split; [assumption | ring].
  - unfold minWithSize, Math.min. destruct (bracketSize b) as [s |].
    + destruct (leb_spec 0 s) as [Hs | ?]; [| discriminate].
      destruct (Q.min_spec (Walk.remainingIncome st) s)
        as [[Hlt E] | [Hle E]]; rewrite E; split; lra.
    + split; lra.
Qed.

Lemma walkBrackets_allocates (A : Q) (brackets : list TaxBracket.t) :
  forallb taxedBracket brackets = true ->
  forall st : Walk.t,
    0 <= Walk.remainingIncome st ->
    0 <= Walk.remainingIncome (walkBrackets A brackets st)
    /\ sumTaxableInBracket (Walk.breakdown (walkBrackets A brackets st))
       + Walk.remainingIncome (walkBrackets A brackets st)
       == sumTaxableInBracket (Walk.breakdown st) + Walk.remainingIncome st.
Proof.
  induction brackets as [| b brackets IH]; intros Hall st Hr.
  - split; [assumption | reflexivity].
  - cbn [forallb] in Hall. apply andb_prop in Hall as [Hb Hall].
    rewrite walkBrackets_cons.
    destruct (bracketStep_allocates A st b Hb Hr) as [Hr' E'].
    destruct (IH Hall _ Hr') as [Hr'' E''].
    split; [assumption | lra].
Qed.

(** A bracket without an upper end takes all that remains. *)
Lemma bracketStep_open_ended (A : Q) (st : Walk.t) (b : TaxBracket.t) :
  taxedBracket b = true ->
  bracketSize b = None ->
  0 <= Walk.remainingIncome st ->
  Walk.remainingIncome (bracketStep A st b) == 0.
Proof.
  unfold taxedBracket. intros Hb Hs Hr.
  apply andb_prop in Hb as [Hb _]. apply andb_prop in Hb as [Hne _].
  apply negb_true_iff in Hne.
  unfold bracketStep. rewrite Hne, Hs.
  destruct (leb_spec (Walk.remainingIncome st) 0) as [H0 | H0];
    cbn [Walk.remainingIncome minWithSize]; lra.
Qed.

(** The first turn of the walk over [PIT_BRACKETS], for an amount that is
    not negative: the exempt band takes the amount up to the threshold. *)
Lemma exempt_band_allocates (A : Q) :
  0 <= A ->
  let st := bracketStep A (Walk.mk [] 0 A) firstBracket in
  0 <= Walk.remainingIncome st
  /\ sumTaxableInBracket (Walk.breakdown st) + Walk.remainingIncome st == A.
Proof.
  intros HA st. subst st. unfold bracketStep, PIT_EXEMPT_THRESHOLD.
  cbn [firstBracket PIT_BRACKETS nth TaxBracket.rate Walk.remainingIncome
       Walk.breakdown].
  change (Qeq_bool 0 0) with true. cbv iota.
  destruct (leb_spec A 0); [| destruct (leb_spec A 800000)];
    cbn [Walk.remainingIncome Walk.breakdown app];
    unfold sumTaxableInBracket; cbn [fold_left];
    cbn [BracketBreakdown.taxableInBracket]; split; lra.
Qed.

(** X2. For every amount [A >= 0] the breakdown of
    [calculateProgressiveTax A] itemizes the whole amount: the
    [taxableInBracket] fields add up to [A], and the [taxForBracket] of
    every entry is its [taxableInBracket] at the rate of its bracket. *)
Theorem calculateProgressiveTax_itemizes (A : Q) :
  0 <= A ->
  sumTaxableInBracket (ProgressiveTax.breakdown (calculateProgressiveTax A))
  == A
  /\ Forall taxedAtRate
            (ProgressiveTax.breakdown (calculateProgressiveTax A)).
Proof.
  intro HA. unfold calculateProgressiveTax. cbn [ProgressiveTax.breakdown].
  split.
  - rewrite walk_PIT_BRACKETS.
    destruct (exempt_band_allocates A HA) as [Hr E].
    set (st := bracketStep A (Walk.mk [] 0 A) firstBracket) in *.
    change (tl PIT_BRACKETS)
      with (firstn 4 (tl PIT_BRACKETS) ++ [nth 5 PIT_BRACKETS firstBracket]).
    rewrite walkBrackets_app.
    destruct (walkBrackets_allocates A (firstn 4 (tl PIT_BRACKETS))
                ltac:(vm_compute; reflexivity) st Hr) as [Hr' E'].
    set (st' := walkBrackets A (firstn 4 (tl PIT_BRACKETS)) st) in *.
    cbn [walkBrackets fold_left].
    destruct (bracketStep_allocates A st' (nth 5 PIT_BRACKETS firstBracket)
                ltac:(vm_compute; reflexivity) Hr') as [_ E''].
    pose proof (bracketStep_open_ended A st'
                  (nth 5 PIT_BRACKETS firstBracket)
                  ltac:(vm_compute; reflexivity) eq_refl Hr') as Z.
    lra.
  - apply walkBrackets_taxedAtRate. constructor.
Qed.

Lemma calculateProgressiveTax_itemizes_witness :
  0 <= 4000000
  /\ sumTaxableInBracket
       (ProgressiveTax.breakdown (calculateProgressiveTax 4000000))
     == 4000000.
Proof.
  split; [lra |].
  apply (calculateProgressiveTax_itemizes 4000000). lra.
Defined.

(** ** The bracket walk: the schedule *)

Lemma walkAt_idle (A : Q) (st : Walk.t) (b : TaxBracket.t) (t r : Q) :
  walkAt st t r -> r <= 0 -> walkAt (bracketStep A st b) t r.
Proof.
  intros [Ht Hr] H. unfold bracketStep.
  rewrite leb_true by lra. split; assumption.
Qed.

Lemma walkAt_exempt_low (A : Q) (st : Walk.t) (b : TaxBracket.t) (t r : Q) :
  Qeq_bool (TaxBracket.rate b) 0 = true ->
  walkAt st t r -> 0 < r -> A <= 800000 ->
  walkAt (bracketStep A st b) t 0.
Proof.
  intros Hb [Ht Hr] H HA. unfold bracketStep, PIT_EXEMPT_THRESHOLD.
  rewrite leb_false by lra. rewrite Hb, (leb_true _ _ HA).
  split; [assumption | reflexivity].
Qed.

Lemma walkAt_exempt_high (A : Q) (st : Walk.t) (b : TaxBracket.t) (t r : Q) :
  Qeq_bool (TaxBracket.rate b) 0 = true ->
  walkAt st t r -> 0 < r -> 800000 < A ->
  walkAt (bracketStep A st b) t (A - 800000).
Proof.
  intros Hb [Ht Hr] H HA. unfold bracketStep, PIT_EXEMPT_THRESHOLD.
  rewrite leb_false by lra. rewrite Hb, (leb_false _ _ HA).
  split; [assumption | reflexivity].
Qed.

Lemma walkAt_part (A : Q) (st : Walk.t) (b : TaxBracket.t) (t r s : Q) :
  Qeq_bool (TaxBracket.rate b) 0 = false ->
  bracketSize b = Some s ->
  walkAt st t r -> 0 < r -> r <= s ->
  walkAt (bracketStep A st b) (t + r * TaxBracket.rate b / 100) 0.
Proof.
  intros Hb Hs [Ht Hr] H Hle. unfold bracketStep.
  rewrite leb_false by lra. rewrite Hb, Hs.
  unfold minWithSize, Math.min.
  destruct (Q.min_spec (Walk.remainingIncome st) s) as [[_ E] | [Hge E]];
    unfold walkAt; cbn [Walk.totalTax Walk.remainingIncome].
  - split; [rewrite E, Ht, Hr; reflexivity | lra].
  - assert (Es : s == r) by lra.
    split; [rewrite E, Ht, Es; reflexivity | lra].
Qed.

Lemma walkAt_full (A : Q) (st : Walk.t) (b : TaxBracket.t) (t r s : Q) :
  Qeq_bool (TaxBracket.rate b) 0 = false ->
  bracketSize b = Some s ->
  walkAt st t r -> 0 < r -> s < r ->
  walkAt (bracketStep A st b) (t + s * TaxBracket.rate b / 100) (r - s).
Proof.
  intros Hb Hs [Ht Hr] H Hlt. unfold bracketStep.
  rewrite leb_false by lra. rewrite Hb, Hs.
  unfold minWithSize, Math.min.
  destruct (Q.min_spec (Walk.remainingIncome st) s) as [[Hcontra E] | [_ E]];
    [lra |].
  unfold walkAt; cbn [Walk.totalTax Walk.remainingIncome].
  split; [rewrite E, Ht; reflexivity | lra].
Qed.

Lemma walkAt_rest (A : Q) (st : Walk.t) (b : TaxBracket.t) (t r : Q) :
  Qeq_bool (TaxBracket.rate b) 0 = false ->
  bracketSize b = None ->
  walkAt st t r -> 0 < r ->
  walkAt (bracketStep A st b) (t + r * TaxBracket.rate b / 100) 0.
Proof.
  intros Hb Hs [Ht Hr] H. unfold bracketStep.
  rewrite leb_false by lra. rewrite Hb, Hs.
  unfold walkAt; cbn [minWithSize Walk.totalTax Walk.remainingIncome].
  split; [rewrite Ht, Hr; reflexivity | lra].
Qed.

(** One turn of the walk from a state whose total and remaining income
    are known: the lemma that applies is found from the bounds at hand. *)
Ltac walk_turn :=
  match goal with
  | H : walkAt ?st ?t ?r |- context [bracketStep ?A ?st ?b] =>
      let W := fresh "W" in
      first
        [ assert (W : walkAt (bracketStep A st b) t r)
            by (apply walkAt_idle; [exact H | lra])
        | assert (W : walkAt (bracketStep A st b) t 0)
            by (apply (walkAt_exempt_low A st b t r);
                [reflexivity | exact H | lra | lra])
        | assert (W : walkAt (bracketStep A st b) t (A - 800000))
            by (apply (walkAt_exempt_high A st b t r);
                [reflexivity | exact H | lra | lra])
        | assert (W : walkAt (bracketStep A st b)
                             (t + r * TaxBracket.rate b / 100) 0)
            by (first
                  [ eapply walkAt_part;
                    [reflexivity | reflexivity | exact H | lra
                    | cbn [TaxBracket.max TaxBracket.min]; lra]
                  | apply walkAt_rest;
                    [reflexivity | reflexivity | exact H | lra] ])
        | match eval cbv in (bracketSize b) with
          | Some ?s =>
              assert (W : walkAt (bracketStep A st b)
                                 (t + s * TaxBracket.rate b / 100) (r - s))
                by (apply walkAt_full;
                    [reflexivity | reflexivity | exact H | lra | lra])
          end ];
      clear H
  end.

Lemma walk_follows_schedule (A : Q) :
  Walk.totalTax (walkBrackets A PIT_BRACKETS (Walk.mk [] 0 A))
  == progressiveSchedule A.
Proof.
  unfold PIT_BRACKETS. rewrite !walkBrackets_cons.
  cbn [walkBrackets fold_left].
  assert (W0 : walkAt (Walk.mk [] 0 A) 0 A) by (split; reflexivity).
  unfold progressiveSchedule.
  destruct (leb_spec A 800000);
    [destruct (leb_spec A 0)
    | destruct (leb_spec A 3000000);
      [| destruct (leb_spec A 12000000);
         [| destruct (leb_spec A 25000000);
            [| destruct (leb_spec A 50000000) ]]]];
    do 6 walk_turn;
    match goal with
    | W : walkAt _ _ _ |- _ =>
        let E := fresh "E" in
        destruct W as [E _]; rewrite E; cbn [TaxBracket.rate]; field
    end.
Qed.

(** The total of [calculateProgressiveTax] is the total of the walk, to
    which [walk_follows_schedule] applies. *)
Ltac total_of_walk :=
  unfold calculateProgressiveTax; cbn [ProgressiveTax.totalTax].

(** X3. [calculateProgressiveTax] computes the tax schedule of the bracket
    table: for every amount, negative ones included, its [totalTax] is
    [progressiveSchedule] of the amount. *)
Theorem calculateProgressiveTax_schedule (A : Q) :
  ProgressiveTax.totalTax (calculateProgressiveTax A)
  == progressiveSchedule A.
Proof.
  unfold calculateProgressiveTax. cbn [ProgressiveTax.totalTax].
  apply walk_follows_schedule.
Qed.

(** Linear arithmetic with the divisions by 100 of the rate formulas
    turned into multiplications. *)
Ltac lra_percent :=
  unfold Qdiv in *; change (/ 100) with (1 # 100) in *; lra.

(** Between two amounts the schedule rises, by at most a quarter of the
    difference of the amounts. *)
Lemma progressiveSchedule_slope (A1 A2 : Q) :
  A1 <= A2 ->
  0 <= progressiveSchedule A2 - progressiveSchedule A1
  /\ progressiveSchedule A2 - progressiveSchedule A1 <= (A2 - A1) * 25 / 100.
Proof.
  intro H. unfold progressiveSchedule.
  repeat match goal with
         | |- context [leb ?a ?b] => destruct (leb_spec a b)
         end; split; lra_percent.
Qed.

Lemma progressiveSchedule_wd (A B : Q) :
  A == B -> progressiveSchedule A == progressiveSchedule B.
Proof.
  intro E.
  destruct (progressiveSchedule_slope A B) as [L1 U1]; [lra |].
  destruct (progressiveSchedule_slope B A) as [L2 U2]; [lra |].
  lra.
Qed.

Lemma progressiveSchedule_bounds (A : Q) :
  0 <= A ->
  0 <= progressiveSchedule A /\ progressiveSchedule A <= A * 25 / 100.
Proof.
  intro H. destruct (progressiveSchedule_slope 0 A H) as [L U].
  assert (Z : progressiveSchedule 0 == 0) by (vm_compute; reflexivity).
  split; lra_percent.
Qed.

(** X4. For [A1 <= A2], negative amounts included, the tax of
    [calculateProgressiveTax] does not fall and what is left after tax does
    not shrink: the tax on [A2] is at least the tax on [A1], and [A2] less
    its tax is at least [A1] less its tax. *)
Theorem calculateProgressiveTax_after_tax_monotonic (A1 A2 : Q) :
  A1 <= A2 ->
  let tax A := ProgressiveTax.totalTax (calculateProgressiveTax A) in
  0 <= tax A2 - tax A1
  /\ A1 - tax A1 <= A2 - tax A2.
Proof.
  intros H tax. subst tax. cbv beta.
  total_of_walk. rewrite !walk_follows_schedule.
  destruct (progressiveSchedule_slope A1 A2 H) as [L U].
  repeat split; lra_percent.
Qed.

Lemma calculateProgressiveTax_after_tax_monotonic_witness :
  1000000 <= 4000000
  /\ 1000000 - ProgressiveTax.totalTax (calculateProgressiveTax 1000000)
     <= 4000000 - ProgressiveTax.totalTax (calculateProgressiveTax 4000000).
Proof.
  split; [lra |].
  apply (calculateProgressiveTax_after_tax_monotonic 1000000 4000000). lra.
Defined.

(** ** Deductions: what is applied and what is counted *)

Lemma applyLimits_appliedFrom (g : Q) (d : Deduction.t) :
  appliedFrom d (applyLimits g d).
Proof.
  unfold appliedFrom, limitedType, applyLimits.
  destruct (String.eqb_spec (Deduction.type d) "rent_relief") as [E1 | N1];
    [rewrite E1
    | destruct (String.eqb_spec (Deduction.type d) "job_loss") as [E2 | N2];
      [rewrite E2
      | destruct (String.eqb_spec (Deduction.type d) "pension") as [E3 | N3];
        [rewrite E3 |]]];
    cbn [String.eqb Ascii.eqb Bool.eqb andb orb];
    repeat match goal with
           | |- context [gtb ?a ?b] => destruct (gtb_spec a b)
           end;
    cbn [AppliedDeduction.type AppliedDeduction.amount
         AppliedDeduction.capped];
    unfold RENT_RELIEF_MAX, JOB_LOSS_COMPENSATION_EXEMPT_LIMIT in *;
    repeat split; intros; try reflexivity; try discriminate; try lra.
Qed.

(** X5. [calculateDeductions] returns one applied deduction for each
    deduction, in order and with its type; the amount counted is never
    above the amount entered; [capped] is [true] exactly when the amount
    was lowered, and otherwise the amount is the one entered; a deduction
    of a type other than [rent_relief], [job_loss] and [pension] is never
    capped. *)
Theorem calculateDeductions_applied_entries (deductions : list Deduction.t)
  (grossIncome : Q) :
  Forall2 appliedFrom deductions
          (snd (calculateDeductions deductions grossIncome)).
Proof.
  rewrite calculateDeductions_applied.
  induction deductions as [| d deductions IH]; cbn [map]; constructor.
  - apply applyLimits_appliedFrom.
  - exact IH.
Qed.

Lemma sumApplied_from (applied : list AppliedDeduction.t) :
  forall s : Q,
    fold_left (fun s a => s + AppliedDeduction.amount a) applied s
    == s + sumApplied applied.
Proof.
  unfold sumApplied.
  induction applied as [| a applied IH]; intro s; cbn [fold_left].
  - ring.
  - rewrite (IH (s + AppliedDeduction.amount a)),
            (IH (0 + AppliedDeduction.amount a)). ring.
Qed.

Lemma deduction_loop_total (g : Q) (deductions : list Deduction.t) :
  forall st : Q * list AppliedDeduction.t,
    fst (fold_left (deductionStep g) deductions st)
    == fst st + sumApplied (map (applyLimits g) deductions).
Proof.
  induction deductions as [| d deductions IH]; intro st; cbn [fold_left map].
  - unfold sumApplied. cbn [fold_left]. ring.
  - rewrite IH. unfold deductionStep. cbn [fst].
    unfold sumApplied at 2. cbn [fold_left]. rewrite sumApplied_from. ring.
Qed.

(** X6. The total returned by [calculateDeductions] is the sum of the
    amounts of the applied deductions it returns, or the gross income when
    that sum is larger. *)
Theorem calculateDeductions_total (deductions : list Deduction.t)
  (grossIncome : Q) :
  fst (calculateDeductions deductions grossIncome)
  == Qmin (sumApplied (snd (calculateDeductions deductions grossIncome)))
          grossIncome.
Proof.
  rewrite calculateDeductions_applied. unfold calculateDeductions.
  pose proof (deduction_loop_total grossIncome deductions (0, [])) as H.
  destruct (fold_left (deductionStep grossIncome) deductions (0, []))
    as [total applied].
  cbn [fst] in *.
  destruct (gtb_spec total grossIncome);
    destruct (Q.min_spec (sumApplied (map (applyLimits grossIncome)
                                          deductions)) grossIncome)
      as [[? E] | [? E]]; rewrite E; lra.
Qed.

(** Deductions that are not negative are counted for amounts that are not
    negative, on a gross income that is not negative. *)
Lemma sumApplied_nonneg (g : Q) (deductions : list Deduction.t) :
  0 <= g ->
  Forall (fun d => 0 <= Deduction.amount d) deductions ->
  0 <= sumApplied (map (applyLimits g) deductions).
Proof.
  intros Hg H. induction H as [| d deductions Hd _ IH]; cbn [map].
  - unfold sumApplied. cbn [fold_left]. lra.
  - unfold sumApplied. cbn [fold_left]. rewrite sumApplied_from.
    assert (0 <= AppliedDeduction.amount (applyLimits g d)); [| lra].
    unfold applyLimits, RENT_RELIEF_MAX, JOB_LOSS_COMPENSATION_EXEMPT_LIMIT.
    repeat match goal with
           | |- context [if ?c then _ else _] => destruct c
           end; cbn [AppliedDeduction.amount]; lra.
Qed.

(** ** Personal income tax: the result as a whole *)

Lemma minus_zero (x : Q) : x == x - 0.
Proof. ring. Qed.

Lemma leb_eq_l (a a' b : Q) : a == a' -> leb a b = leb a' b.
Proof. intro E. unfold leb. now rewrite E. Qed.

Section pitResult.
Context {host : Locale}.

(** The amounts of a [PITResult] in terms of the gross income [G] and the
    total of the deductions [D] the calculator starts from. *)
Lemma calculatePIT_amounts (incomeSources : list IncomeSource.t)
  (deductions : list Deduction.t) (isResident : bool) :
  let r := calculatePIT incomeSources deductions isResident in
  let G := calculateGrossIncome incomeSources in
  let D := fst (calculateDeductions deductions G) in
  PITResult.grossIncome r = G
  /\ PITResult.totalDeductions r = D
  /\ PITResult.taxableIncome r == G - D
  /\ D <= G
  /\ PITResult.totalTax r == progressiveSchedule (G - D)
  /\ PITResult.netTakeHome r == G - D - PITResult.totalTax r
  /\ PITResult.isExempt r = leb (G - D) 800000.
Proof.
  intros r G D. subst r.
  assert (HD : D <= G) by apply calculateDeductions_total_le.
  assert (M : Math.max 0 (G - D) == G - D)
    by (unfold Math.max; apply Q.max_r; lra).
  unfold calculatePIT, PIT_EXEMPT_THRESHOLD. cbv zeta. fold G. fold D.
  rewrite (leb_eq_l _ _ 800000 M).
  destruct (leb_spec (G - D) 800000) as [Hle | Hgt];
    cbn [PITResult.grossIncome PITResult.totalDeductions
         PITResult.taxableIncome PITResult.totalTax PITResult.netTakeHome
         PITResult.isExempt].
  - repeat split; try assumption; try reflexivity.
    + unfold progressiveSchedule. now rewrite leb_true.
    + apply minus_zero.
  - repeat split; try assumption; try reflexivity;
      destruct isResident;
      try (total_of_walk; rewrite walk_follows_schedule;
           apply progressiveSchedule_wd, M);
      apply Qeq_refl.
Qed.

(** X7. In every result of [calculatePIT] the taxable income is the gross
    income less the deductions and is never negative: the deductions never
    exceed the gross income, so the [Math.max(0, ...)] never changes the
    difference. *)
Theorem calculatePIT_taxableIncome_is_difference
  (incomeSources : list IncomeSource.t) (deductions : list Deduction.t)
  (isResident : bool) :
  let r := calculatePIT incomeSources deductions isResident in
  PITResult.taxableIncome r
  == PITResult.grossIncome r - PITResult.totalDeductions r
  /\ 0 <= PITResult.taxableIncome r
  /\ PITResult.totalDeductions r <= PITResult.grossIncome r.
Proof.
  intro r. subst r.
  destruct (calculatePIT_amounts incomeSources deductions isResident)
    as [EG [ED [ET [HD _]]]].
  rewrite EG, ED, ET. repeat split; lra.
Qed.

(** X8. The tax of every result of [calculatePIT] is the tax schedule of
    its taxable income, on the exempt path as on the bracket walk, and the
    result is marked exempt exactly when the taxable income is at most
    800,000. *)
Theorem calculatePIT_follows_schedule (incomeSources : list IncomeSource.t)
  (deductions : list Deduction.t) (isResident : bool) :
  let r := calculatePIT incomeSources deductions isResident in
  PITResult.totalTax r == progressiveSchedule (PITResult.taxableIncome r)
  /\ (PITResult.isExempt r = true <-> PITResult.taxableIncome r <= 800000).
Proof.
  intro r. subst r.
  destruct (calculatePIT_amounts incomeSources deductions isResident)
    as [_ [_ [ET [_ [ETax [_ EX]]]]]].
  split.
  - rewrite ETax. apply progressiveSchedule_wd. now symmetry.
  - rewrite EX, ET. unfold leb. apply Qle_bool_iff.
Qed.

(** X9. In every result of [calculatePIT] the tax is between [0] and 25%
    of the taxable income, and the net take-home pay, which is the taxable
    income less the tax, is never negative. *)
Theorem calculatePIT_tax_bounds (incomeSources : list IncomeSource.t)
  (deductions : list Deduction.t) (isResident : bool) :
  let r := calculatePIT incomeSources deductions isResident in
  0 <= PITResult.totalTax r
  /\ PITResult.totalTax r <= PITResult.taxableIncome r * 25 / 100
  /\ PITResult.netTakeHome r
     == PITResult.taxableIncome r - PITResult.totalTax r
  /\ 0 <= PITResult.netTakeHome r.
Proof.
  intro r. subst r.
  destruct (calculatePIT_amounts incomeSources deductions isResident)
    as [_ [_ [ET [HD [ETax [EN _]]]]]].
  set (G := calculateGrossIncome incomeSources) in *.
  set (D := fst (calculateDeductions deductions G)) in *.
  assert (HT : 0 <= G - D) by lra.
  destruct (progressiveSchedule_bounds (G - D) HT) as [L U].
  rewrite EN, ETax, ET. repeat split; lra_percent.
Qed.

(** X10. On the exempt path as on the taxed one, the monthly figures of
    [calculatePIT] are the annual ones divided by 12 ([monthlyTax] is
    [totalTax / 12], [monthlyNetPay] is [netTakeHome / 12]) and
    [netTakeHome] is the gross income less the deductions and the tax. *)
Theorem calculatePIT_monthly (incomeSources : list IncomeSource.t)
  (deductions : list Deduction.t) (isResident : bool) :
  let r := calculatePIT incomeSources deductions isResident in
  PITResult.monthlyTax r == PITResult.totalTax r / 12
  /\ PITResult.monthlyNetPay r == PITResult.netTakeHome r / 12
  /\ PITResult.netTakeHome r
     == PITResult.grossIncome r - PITResult.totalDeductions r
        - PITResult.totalTax r.
Proof.
  intro r. subst r. unfold calculatePIT.
  destruct (leb _ PIT_EXEMPT_THRESHOLD);
    cbn [PITResult.monthlyTax PITResult.totalTax PITResult.monthlyNetPay
         PITResult.netTakeHome PITResult.grossIncome
         PITResult.totalDeductions].
  - split; [reflexivity | split; [apply Qeq_refl | apply minus_zero]].
  - destruct isResident;
      (split; [apply Qeq_refl | split; apply Qeq_refl]).
Qed.

End pitResult.

(** ** Corporate income tax: the amounts *)

Lemma calculateCFCTax_nonneg (foreignProfits distributedProfits : option Q) :
  0 <= calculateCFCTax foreignProfits distributedProfits.
Proof.
  unfold calculateCFCTax, CIT_RATE.
  pose proof (Math_max_0_nonneg
                (orZero foreignProfits - orZero distributedProfits)).
  lra_percent.
Qed.

(** Without positive foreign profits, and with distributed profits that
    are not negative, there is nothing undistributed to tax. *)
Lemma calculateCFCTax_none (foreignProfits distributedProfits : option Q) :
  definedPositive foreignProfits = false ->
  0 <= orZero distributedProfits ->
  calculateCFCTax foreignProfits distributedProfits == 0.
Proof.
  intros Hf Hd. unfold calculateCFCTax, CIT_RATE, Math.max.
  assert (Hle : orZero foreignProfits <= 0).
  { destruct foreignProfits as [v |]; cbn [orZero definedPositive] in *;
      [| lra].
    destruct (Qeq_bool v 0) eqn:E; cbn [negb andb] in Hf.
    - apply Qeq_bool_iff in E. lra.
    - destruct (gtb_spec v 0); [discriminate | assumption]. }
  rewrite Q.max_l by lra. reflexivity.
Qed.

Section citAmounts.
Context {host : Locale}.

(** X11. For a turnover above 100,000,000, whatever the profits and the
    flags: [citAmount] is 30% and [developmentLevy] 4% of the assessable
    profits, [minimumTaxTopUp] is 0, [cfcTax] is 30% of the foreign profits
    not distributed, and [totalTaxPayable] is the sum of [citAmount],
    [developmentLevy] and [cfcTax]. *)
Theorem calculateCIT_other_company (input : CITInput.t) :
  100000000 < CITInput.turnover input ->
  let r := calculateCIT input in
  let p := CITInput.assessableProfits input in
  CITResult.companySize r = other
  /\ CITResult.citAmount r == p * 30 / 100
  /\ CITResult.developmentLevy r == p * 4 / 100
  /\ CITResult.minimumTaxTopUp r == 0
  /\ CITResult.cfcTax r
     == Math.max 0 (orZero (CITInput.foreignProfits input)
                    - orZero (CITInput.distributedForeignProfits input))
        * 30 / 100
  /\ 0 <= CITResult.cfcTax r
  /\ CITResult.totalTaxPayable r
     == CITResult.citAmount r + CITResult.developmentLevy r
        + CITResult.cfcTax r.
Proof.
  intros Ht r p. subst r p. unfold calculateCIT.
  rewrite (determineCompanySize_other _ Ht).
  unfold calculateOtherCompanyCIT.
  cbn [CITResult.companySize CITResult.citAmount CITResult.developmentLevy
       CITResult.minimumTaxTopUp CITResult.cfcTax CITResult.totalTaxPayable].
  pose proof (no_top_up_at_flat_rates (CITInput.assessableProfits input)
                (CITInput.isMultinationalSubject input)) as Z.
  pose proof (calculateCFCTax_nonneg (CITInput.foreignProfits input)
                (CITInput.distributedForeignProfits input)) as N.
  unfold CIT_RATE, DEVELOPMENT_LEVY_RATE in *.
  split; [reflexivity |]. split; [reflexivity |]. split; [reflexivity |].
  split; [exact Z |]. split; [reflexivity |]. split; [exact N |].
  rewrite Z. ring.
Qed.

(** X12. Neither [companyType] nor [isMultinationalSubject] changes an
    amount of the result of [calculateCIT]: with other values for the two
    fields the size, the rates, the taxes, the top-up and the total are the
    same; only the breakdown may list one line more. *)
Theorem calculateCIT_flags_irrelevant (input : CITInput.t)
  (companyType : CompanyType) (isMultinationalSubject : bool) :
  sameCITAmounts
    (calculateCIT input)
    (calculateCIT (asCompanyOfType input companyType isMultinationalSubject)).
Proof.
  unfold sameCITAmounts, calculateCIT, asCompanyOfType.
  cbn [CITInput.turnover].
  destruct (determineCompanySize (CITInput.turnover input)).
  - repeat split; reflexivity.
  - unfold calculateOtherCompanyCIT.
    cbn [CITInput.assessableProfits CITInput.isMultinationalSubject
         CITInput.foreignProfits CITInput.distributedForeignProfits
         CITResult.companySize CITResult.citRate CITResult.citAmount
         CITResult.developmentLevy CITResult.totalTaxBeforeTopUp
         CITResult.effectiveTaxRate CITResult.minimumTaxTopUp
         CITResult.cfcTax CITResult.totalTaxPayable].
    pose proof (no_top_up_at_flat_rates (CITInput.assessableProfits input)
                  (CITInput.isMultinationalSubject input)) as Z1.
    pose proof (no_top_up_at_flat_rates (CITInput.assessableProfits input)
                  isMultinationalSubject) as Z2.
    split; [reflexivity |]. split; [reflexivity |]. split; [reflexivity |].
    split; [reflexivity |]. split; [reflexivity |].
    split; [| split; [| split; [reflexivity |]]].
    + destruct (gtb (CITInput.assessableProfits input) 0);
        [rewrite Z1, Z2 |]; reflexivity.
    + rewrite Z1, Z2. reflexivity.
    + rewrite Z1, Z2. reflexivity.
Qed.

Lemma sumCITLines_push (l : list CITLine.t) (x : CITLine.t) :
  sumCITLines (l ++ [x]) = sumCITLines l + CITLine.amount x.
Proof. unfold sumCITLines. now rewrite fold_left_app. Qed.

(** X13. When the distributed foreign profits are not negative, the
    amounts of the lines of the breakdown of [calculateCIT] add up to
    [totalTaxPayable]: the lines left out (the top-up of a company not
    subject to the minimum rate, the tax on foreign profits when there are
    none) stand for amounts that are 0. *)
Theorem calculateCIT_breakdown_adds_up (input : CITInput.t) :
  0 <= orZero (CITInput.distributedForeignProfits input) ->
  sumCITLines (CITResult.breakdown (calculateCIT input))
  == CITResult.totalTaxPayable (calculateCIT input).
Proof.
  intro Hd. unfold calculateCIT.
  destruct (determineCompanySize (CITInput.turnover input)).
  - unfold calculateSmallCompanyCIT.
    cbn [CITResult.breakdown CITResult.totalTaxPayable].
    unfold sumCITLines. cbn [fold_left CITLine.amount]. ring.
  - unfold calculateOtherCompanyCIT.
    cbn [CITResult.breakdown CITResult.totalTaxPayable].
    pose proof (no_top_up_at_flat_rates (CITInput.assessableProfits input)
                  (CITInput.isMultinationalSubject input)) as Z.
    pose proof (calculateCFCTax_none (CITInput.foreignProfits input)
                  (CITInput.distributedForeignProfits input)) as C.
    destruct (CITInput.isMultinationalSubject input);
      destruct (definedPositive (CITInput.foreignProfits input));
      rewrite ?sumCITLines_push; cbn [app];
      rewrite ?sumCITLines_push; cbn [CITLine.amount];
      unfold sumCITLines; cbn [fold_left];
      try rewrite (C eq_refl Hd); rewrite ?Z; ring.
Qed.

End citAmounts.

Lemma calculateCIT_other_company_witness :
  100000000 < 200000000
  /\ CITResult.totalTaxPayable
       (@calculateCIT plainDigits
          (CITInput.mk 200000000 10000000 domestic false None None))
     == 3400000.
Proof.
  split; [lra |].
  destruct (@calculateCIT_other_company plainDigits
              (CITInput.mk 200000000 10000000 domestic false None None))
    as [_ [_ [_ [_ [_ [_ E]]]]]];
    [cbn [CITInput.turnover]; lra |].
  rewrite E. vm_compute. reflexivity.
Defined.

Lemma calculateCIT_breakdown_adds_up_witness :
  0 <= orZero (CITInput.distributedForeignProfits multinationalProfits)
  /\ sumCITLines
       (CITResult.breakdown (@calculateCIT plainDigits multinationalProfits))
     == CITResult.totalTaxPayable
          (@calculateCIT plainDigits multinationalProfits).
Proof.
  assert (H : 0 <= orZero
                     (CITInput.distributedForeignProfits multinationalProfits))
    by (cbn [multinationalProfits CITInput.distributedForeignProfits orZero];
        lra).
  split; [exact H |].
  exact (@calculateCIT_breakdown_adds_up plainDigits multinationalProfits H).
Defined.

Example multinationalProfits_result :
  let r := @calculateCIT plainDigits multinationalProfits in
  CITResult.citAmount r == 3000000
  /\ CITResult.developmentLevy r == 400000
  /\ CITResult.minimumTaxTopUp r == 0
  /\ CITResult.cfcTax r == 180000
  /\ CITResult.totalTaxPayable r == 3580000
  /\ List.length (CITResult.breakdown r) = 4%nat.
Proof. repeat split; vm_compute; reflexivity. Qed.

(** ** Capital gains tax: the amounts *)

Section cgtAmounts.
Context {host : Locale}.

(** The amounts of a [CGTResult] in terms of the gain the calculator
    starts from. *)
Lemma calculateCGT_amounts (input : CGTInput.t) :
  let r := calculateCGT input in
  let gain :=
    Math.max 0 (CGTInput.saleProceeds input - calculateTotalCosts input) in
  CGTResult.saleProceeds r = CGTInput.saleProceeds input
  /\ CGTResult.totalCosts r = calculateTotalCosts input
  /\ CGTResult.capitalGain r = gain
  /\ CGTResult.cgtAmount r == cgtSchedule input gain
  /\ CGTResult.isExempt r
     = match CGTInput.taxpayerType input with
       | individual => leb gain 800000
       | company => isSmallCompany input
       end.
Proof.
  intros r gain. subst r.
  unfold calculateCGT, calculateCompanyCGT, calculateIndividualCGT,
    cgtSchedule, isSmallCompany, COMPANY_CGT_RATE.
  cbv zeta. fold gain.
  destruct (CGTInput.taxpayerType input).
  - destruct (leb_spec gain 800000) as [Hle | Hgt];
      cbn [CGTResult.saleProceeds CGTResult.totalCosts CGTResult.capitalGain
           CGTResult.cgtAmount CGTResult.isExempt].
    + repeat split; try reflexivity.
      unfold progressiveSchedule. now rewrite leb_true.
    + repeat split; try reflexivity.
      total_of_walk. apply walk_follows_schedule.
  - destruct (CGTInput.companyTurnover input) as [t |];
      [destruct (leb t SMALL_COMPANY_TURNOVER_LIMIT) |];
      cbn [CGTResult.saleProceeds CGTResult.totalCosts CGTResult.capitalGain
           CGTResult.cgtAmount CGTResult.isExempt];
      repeat split; reflexivity.
Qed.

(** X14. The tax of [calculateCGT] follows one formula on all paths: for
    an individual the tax schedule of the capital gain, under the
    threshold as above it; for a company 0 when its turnover is given and
    at most 100,000,000 and 30% of the capital gain otherwise. *)
Theorem calculateCGT_follows_schedule (input : CGTInput.t) :
  CGTResult.cgtAmount (calculateCGT input)
  == cgtSchedule input (CGTResult.capitalGain (calculateCGT input)).
Proof.
  destruct (calculateCGT_amounts input) as [_ [_ [EG [EA _]]]].
  rewrite EG. exact EA.
Qed.

Lemma cgtSchedule_bounds (input : CGTInput.t) (gain : Q) :
  0 <= gain ->
  0 <= cgtSchedule input gain /\ cgtSchedule input gain <= gain * 30 / 100.
Proof.
  intro Hg. destruct (progressiveSchedule_bounds gain Hg) as [L U].
  unfold cgtSchedule.
  destruct (CGTInput.taxpayerType input);
    [| destruct (isSmallCompany input)]; split; lra_percent.
Qed.

(** X15. In every result of [calculateCGT] the capital gain is not
    negative, the tax lies between 0 and 30% of the capital gain, the net
    proceeds are the sale proceeds less the tax, and an exempt result has a
    tax of 0. *)
Theorem calculateCGT_bounds (input : CGTInput.t) :
  let r := calculateCGT input in
  0 <= CGTResult.capitalGain r
  /\ 0 <= CGTResult.cgtAmount r
  /\ CGTResult.cgtAmount r <= CGTResult.capitalGain r * 30 / 100
  /\ CGTResult.netProceeds r
     == CGTResult.saleProceeds r - CGTResult.cgtAmount r
  /\ (CGTResult.isExempt r = true -> CGTResult.cgtAmount r == 0).
Proof.
  intro r. subst r.
  destruct (calculateCGT_amounts input) as [_ [_ [EG [EA EX]]]].
  pose proof (calculateCGT_netProceeds input) as EN.
  rewrite EG, EX.
  set (gain := Math.max 0 (CGTInput.saleProceeds input
                           - calculateTotalCosts input)) in *.
  assert (Hg : 0 <= gain) by apply Math_max_0_nonneg.
  destruct (progressiveSchedule_bounds gain Hg) as [L U].
  unfold cgtSchedule in EA.
  split; [assumption |].
  destruct (CGTInput.taxpayerType input).
  - repeat split; try assumption; try lra_percent.
    intro Hle. rewrite EA. unfold progressiveSchedule. now rewrite Hle.
  - destruct (isSmallCompany input);
      repeat split; try assumption; try lra_percent; discriminate.
Qed.

(** X16. When the sale proceeds and the costs are not negative, the tax
    of [calculateCGT] is at most 30% of the sale proceeds, and the net
    proceeds are at least the sale proceeds less 30% of them and are not
    negative. *)
Theorem calculateCGT_netProceeds_floor (input : CGTInput.t) :
  0 <= CGTInput.saleProceeds input ->
  0 <= CGTResult.totalCosts (calculateCGT input) ->
  CGTResult.cgtAmount (calculateCGT input)
  <= CGTInput.saleProceeds input * 30 / 100
  /\ CGTInput.saleProceeds input - CGTInput.saleProceeds input * 30 / 100
     <= CGTResult.netProceeds (calculateCGT input)
  /\ 0 <= CGTResult.netProceeds (calculateCGT input).
Proof.
  intros Hs Hc.
  destruct (calculateCGT_amounts input) as [ES [EC [EG [EA _]]]].
  pose proof (calculateCGT_netProceeds input) as EN.
  rewrite EC in Hc. rewrite ES in EN.
  set (gain := Math.max 0 (CGTInput.saleProceeds input
                           - calculateTotalCosts input)) in *.
  assert (Hg : 0 <= gain) by apply Math_max_0_nonneg.
  destruct (cgtSchedule_bounds input gain Hg) as [L U].
  assert (G : gain <= CGTInput.saleProceeds input).
  { subst gain. unfold Math.max. apply Q.max_lub; lra. }
  rewrite EN, EA. repeat split; lra_percent.
Qed.

(** X17. [isOffshoreTransfer] changes no amount: with another value for
    it, [calculateCGT] returns the same fields and a breakdown with the
    same labels and amounts; only the note of a line can differ. *)
Theorem calculateCGT_offshore_irrelevant (input : CGTInput.t)
  (isOffshoreTransfer : option bool) :
  CGTHeadline (calculateCGT (withOffshoreTransfer input isOffshoreTransfer))
  = CGTHeadline (calculateCGT input).
Proof.
  destruct input as [type sale cost improvement transfer offshore turnover].
  unfold CGTHeadline, withOffshoreTransfer, calculateCGT,
    calculateCompanyCGT, calculateIndividualCGT, calculateTotalCosts,
    costLines, exemptLines.
  cbn [CGTInput.taxpayerType CGTInput.saleProceeds CGTInput.acquisitionCost
       CGTInput.improvementCosts CGTInput.transferCosts
       CGTInput.isOffshoreTransfer CGTInput.companyTurnover].
  cbv zeta.
  destruct type.
  - reflexivity.
  - destruct turnover as [t |];
      [destruct (leb t SMALL_COMPANY_TURNOVER_LIMIT) |];
      cbn [CGTResult.taxpayerType CGTResult.saleProceeds
           CGTResult.totalCosts CGTResult.capitalGain CGTResult.cgtRate
           CGTResult.cgtAmount CGTResult.netProceeds
           CGTResult.effectiveRate CGTResult.isExempt
           CGTResult.exemptReason CGTResult.breakdown];
      rewrite ?map_app; cbn [map CGTLine.label CGTLine.amount];
      reflexivity.
Qed.

End cgtAmounts.

Lemma calculateCGT_netProceeds_floor_witness :
  CGTInput.saleProceeds saleByIndividual
  - CGTInput.saleProceeds saleByIndividual * 30 / 100
  <= CGTResult.netProceeds (@calculateCGT plainDigits saleByIndividual).
Proof.
  apply (@calculateCGT_netProceeds_floor plainDigits saleByIndividual);
    vm_compute; discriminate.
Defined.

(** ** Value added tax: the two modes, business returns and line items *)

(** X18. In both modes of [calculateVAT] the gross amount is the net
    amount plus the tax; the amount given is returned as [originalAmount]
    and as the net amount (exclusive mode) or the gross amount (inclusive
    mode), and the mode is returned unchanged. *)
Theorem calculateVAT_consistent (input : VATInput.t) :
  let r := calculateVAT input in
  VATResult.grossAmount r == VATResult.netAmount r + VATResult.vatAmount r
  /\ VATResult.originalAmount r = VATInput.amount input
  /\ VATResult.calculationType r = VATInput.calculationType input
  /\ match VATInput.calculationType input with
     | exclusive => VATResult.netAmount r = VATInput.amount input
     | inclusive => VATResult.grossAmount r = VATInput.amount input
     end.
Proof.
  intro r. subst r. unfold calculateVAT, VAT_RATE.
  destruct (VATInput.calculationType input);
    cbn [VATResult.grossAmount VATResult.netAmount VATResult.vatAmount
         VATResult.originalAmount VATResult.calculationType];
    (split; [| split; [| split]]);
    try reflexivity; ring.
Qed.



(** The same round trip on the binary64 numbers of the source: 707,446,651
    comes back as 707446651.0000001, within the relative tolerance. *)
Example round_trip_from_gross_binary64 :
  let extracted :=
    Binary64.calculateVAT (Binary64.VATInput.mk 707446651%float inclusive) in
  let added :=
    Binary64.calculateVAT
      (Binary64.VATInput.mk (Binary64.VATResult.netAmount extracted)
                            exclusive) in
  Binary64.VATResult.grossAmount added = 707446651.0000001%float
  /\ Binary64.within (PrimFloat.mul 1e-6%float 707446651%float)
                     (Binary64.VATResult.grossAmount added) 707446651%float
     = true.
Proof. split; vm_compute; reflexivity. Qed.

Section vatBusiness.
Context {host : Locale}.

(** X20. A business return is never payable and refundable at once: it
    is payable exactly when the output tax exceeds the input tax,
    refundable exactly when the input tax exceeds the output tax, and
    neither exactly when the two are equal; [netVAT] is their difference. *)
Theorem calculateBusinessVAT_flags (input : VATBusinessInput.t) :
  let r := calculateBusinessVAT input in
  let o := VATBusinessInput.outputVAT input in
  let i := VATBusinessInput.inputVAT input in
  VATBusinessResult.netVAT r == o - i
  /\ (VATBusinessResult.isPayable r = true <-> i < o)
  /\ (VATBusinessResult.isRefundable r = true <-> o < i)
  /\ (VATBusinessResult.isPayable r = false
      /\ VATBusinessResult.isRefundable r = false <-> o == i)
  /\ VATBusinessResult.isPayable r && VATBusinessResult.isRefundable r
     = false.
Proof.
  intros r o i. subst r o i. unfold calculateBusinessVAT.
  cbn [VATBusinessResult.netVAT VATBusinessResult.isPayable
       VATBusinessResult.isRefundable].
  unfold ltb. change (negb (Qle_bool ?a ?b)) with (gtb a b).
  set (o := VATBusinessInput.outputVAT input).
  set (i := VATBusinessInput.inputVAT input).
  destruct (gtb_spec (o - i) 0); destruct (gtb_spec 0 (o - i));
    cbn [andb]; repeat split; intros;
    try reflexivity; try discriminate; try lra;
    repeat match goal with
           | H : _ /\ _ |- _ => destruct H
           end; try discriminate; try lra.
Qed.

End vatBusiness.

Lemma sumOf_from {X : Type} (f : X -> Q) (l : list X) :
  forall s : Q, fold_left (fun s x => s + f x) l s == s + sumOf f l.
Proof.
  unfold sumOf.
  induction l as [| x l IH]; intro s; cbn [fold_left].
  - ring.
  - rewrite (IH (s + f x)), (IH (0 + f x)). ring.
Qed.

Lemma sumOf_cons {X : Type} (f : X -> Q) (x : X) (l : list X) :
  sumOf f (x :: l) == f x + sumOf f l.
Proof. unfold sumOf at 1. cbn [fold_left]. rewrite sumOf_from. ring. Qed.

(** The state of the loop of [calculateMultiItemVAT] after a list of
    items. *)
Lemma multiItem_loop (vatRate : Q) (items : list VATItem.t) :
  forall (processed : list VATLine.t) (totalNet totalVAT : Q),
    let st := fold_left (multiItemStep vatRate) items
                        (processed, totalNet, totalVAT) in
    fst (fst st) = processed ++ map (processItem vatRate) items
    /\ snd (fst st) == totalNet + sumOf VATItem.amount items
    /\ snd st
       == totalVAT
          + sumOf VATLine.vatAmount (map (processItem vatRate) items).
Proof.
  induction items as [| item items IH]; intros processed totalNet totalVAT;
    cbn [fold_left map].
  - cbn [fst snd]. rewrite app_nil_r. unfold sumOf. cbn [fold_left].
    split; [reflexivity | split; ring].
  - unfold multiItemStep at 2.
    destruct (IH (processed ++ [processItem vatRate item])
                 (totalNet + VATItem.amount item)
                 (totalVAT + VATLine.vatAmount (processItem vatRate item)))
      as [E1 [E2 E3]].
    cbv zeta in *. rewrite E1, E2, E3, !sumOf_cons, <- app_assoc.
    split; [reflexivity | split; ring].
Qed.

Lemma processItem_lineOf (item : VATItem.t) :
  lineOf item (processItem (VAT_RATE / 100) item).
Proof.
  unfold lineOf, processItem, itemExempt, calculateVAT.
  destruct (VATItem.isVATExempt item) as [[|] |];
    cbn [VATLine.description VATLine.amount VATLine.isExempt
         VATLine.vatAmount VATLine.totalWithVAT VATInput.calculationType
         VATInput.amount VATResult.vatAmount VATResult.grossAmount];
    repeat split; try reflexivity; ring.
Qed.

(** X21. [calculateMultiItemVAT] returns one line for each item, in
    order, related to its item as [lineOf] says; [totalNet] is the sum of
    the amounts, [totalVAT] the sum of the taxes of the lines and
    [grandTotal] the sum of [totalNet] and [totalVAT]. *)
Theorem calculateMultiItemVAT_totals (items : list VATItem.t) :
  let r := calculateMultiItemVAT items in
  Forall2 lineOf items (MultiItemVAT.items r)
  /\ MultiItemVAT.totalNet r == sumOf VATItem.amount items
  /\ MultiItemVAT.totalVAT r == sumOf VATLine.vatAmount (MultiItemVAT.items r)
  /\ MultiItemVAT.grandTotal r
     == MultiItemVAT.totalNet r + MultiItemVAT.totalVAT r.
Proof.
  intro r. subst r. unfold calculateMultiItemVAT.
  pose proof (multiItem_loop (VAT_RATE / 100) items [] 0 0) as H.
  cbv zeta in H.
  destruct (fold_left (multiItemStep (VAT_RATE / 100)) items ([], 0, 0))
    as [[processed totalNet] totalVAT].
  cbn [fst snd app] in H. destruct H as [E1 [E2 E3]]. subst processed.
  cbn [MultiItemVAT.items MultiItemVAT.totalNet MultiItemVAT.totalVAT
       MultiItemVAT.grandTotal].
  split; [| split; [| split]].
  - clear E2 E3. induction items as [| item items IH]; cbn [map];
      constructor; [apply processItem_lineOf | exact IH].
  - rewrite E2. ring.
  - rewrite E3. ring.
  - reflexivity.
Qed.

Lemma vatAmount_sum_exempt (items : list VATItem.t) :
  Forall (fun item => itemExempt item = true) items ->
  sumOf VATLine.vatAmount (map (processItem (VAT_RATE / 100)) items) == 0.
Proof.
  intro H. induction H as [| item items Hi _ IH]; cbn [map].
  - unfold sumOf. cbn [fold_left]. ring.
  - rewrite !sumOf_cons, IH. unfold processItem.
    unfold itemExempt in Hi. rewrite Hi. cbn [VATLine.vatAmount]. ring.
Qed.

(** X22. When every item is exempt, [calculateMultiItemVAT] charges no
    tax at all: every line has a tax of 0, [totalVAT] is 0 and [grandTotal]
    equals [totalNet]. *)
Theorem calculateMultiItemVAT_all_exempt (items : list VATItem.t) :
  Forall (fun item => itemExempt item = true) items ->
  let r := calculateMultiItemVAT items in
  Forall (fun line => VATLine.vatAmount line == 0) (MultiItemVAT.items r)
  /\ MultiItemVAT.totalVAT r == 0
  /\ MultiItemVAT.grandTotal r == MultiItemVAT.totalNet r.
Proof.
  intros Hall r. subst r. unfold calculateMultiItemVAT.
  pose proof (multiItem_loop (VAT_RATE / 100) items [] 0 0) as H.
  cbv zeta in H.
  destruct (fold_left (multiItemStep (VAT_RATE / 100)) items ([], 0, 0))
    as [[processed totalNet] totalVAT].
  cbn [fst snd app] in H. destruct H as [E1 [_ E3]]. subst processed.
  cbn [MultiItemVAT.items MultiItemVAT.totalNet MultiItemVAT.totalVAT
       MultiItemVAT.grandTotal].
  rewrite (vatAmount_sum_exempt items Hall) in E3.
  split; [| split].
  - clear E3. induction Hall as [| item items Hi _ IH]; cbn [map];
      constructor; [| exact IH].
    unfold processItem. unfold itemExempt in Hi. rewrite Hi.
    cbn [VATLine.vatAmount]. reflexivity.
  - rewrite E3. ring.
  - rewrite E3. ring.
Qed.

(** ** Validation of a TIN *)

Lemma cleanTIN_blank (tin : jsString) :
  isBlank tin = true -> cleanTIN tin = [].
Proof.
  unfold isBlank, cleanTIN.
  induction tin as [| c tin IH]; cbn [forallb filter]; intro H.
  - reflexivity.
  - apply andb_prop in H as [Hc H]. rewrite Hc. cbn [orb negb].
    now apply IH.
Qed.

Lemma cleanTIN_withoutSpaces (tin : jsString) :
  cleanTIN tin = filter (fun c => negb (isHyphen c)) (withoutSpaces tin).
Proof.
  unfold cleanTIN, withoutSpaces.
  induction tin as [| c tin IH]; cbn [filter].
  - reflexivity.
  - destruct (isSpace c); cbn [orb negb filter]; [exact IH |].
    destruct (isHyphen c); cbn [negb]; now rewrite IH.
Qed.

Lemma digit_not_hyphen (c : N) : isDigit c = true -> isHyphen c = false.
Proof.
  unfold isDigit, isHyphen. intro H. apply andb_prop in H as [H _].
  apply N.leb_le in H. apply N.eqb_neq. lia.
Qed.

Lemma digits_kept (s : jsString) :
  forallb isDigit s = true ->
  filter (fun c => negb (isHyphen c)) s = s.
Proof.
  induction s as [| c s IH]; cbn [forallb filter]; intro H.
  - reflexivity.
  - apply andb_prop in H as [Hc H].
    rewrite (digit_not_hyphen c Hc). cbn [negb]. now rewrite IH.
Qed.

Lemma hyphens_dropped (s : jsString) :
  forallb isHyphen s = true ->
  filter (fun c => negb (isHyphen c)) s = [].
Proof.
  induction s as [| c s IH]; cbn [forallb filter]; intro H.
  - reflexivity.
  - apply andb_prop in H as [Hc H]. rewrite Hc. cbn [negb]. now apply IH.
Qed.

(** A string in one of the two formats of [TIN_PATTERN] is ten or twelve
    digits once its hyphen is removed. *)
Lemma TIN_PATTERN_digits (s : jsString) :
  TIN_PATTERN s = true ->
  tenOrTwelveDigits (filter (fun c => negb (isHyphen c)) s) = true.
Proof.
  unfold TIN_PATTERN, tenOrTwelveDigits, onlyDigits. intro H.
  apply orb_prop in H as [H | H].
  - apply andb_prop in H as [Hlen Hd]. apply Nat.eqb_eq in Hlen.
    rewrite (digits_kept s Hd), Hd, Hlen. reflexivity.
  - apply andb_prop in H as [H H3]. apply andb_prop in H as [H H2].
    apply andb_prop in H as [Hlen H1]. apply Nat.eqb_eq in Hlen.
    assert (E : s = firstn 8 s ++ firstn 1 (skipn 8 s) ++ skipn 9 s).
    { rewrite <- (firstn_skipn 8 s) at 1. f_equal.
      rewrite <- (firstn_skipn 1 (skipn 8 s)) at 1. f_equal.
      now rewrite skipn_skipn. }
    rewrite E, !filter_app.
    rewrite (digits_kept _ H1), (hyphens_dropped _ H2), (digits_kept _ H3).
    cbn [app]. rewrite forallb_app, H1, H3, length_app, length_firstn,
      length_skipn, Hlen.
    reflexivity.
Qed.

Lemma validateTIN_valid (tin : jsString) :
  Validation.valid (validateTIN tin) = tenOrTwelveDigits (cleanTIN tin).
Proof.
  unfold validateTIN, tenOrTwelveDigits. fold (cleanTIN tin).
  destruct (Nat.eqb (List.length tin) 0) eqn:E0.
  - apply Nat.eqb_eq in E0. apply length_zero_iff_nil in E0. subst tin.
    reflexivity.
  - cbn [orb]. destruct (isBlank tin) eqn:Eb.
    + rewrite (cleanTIN_blank tin Eb). reflexivity.
    + destruct (onlyDigits (cleanTIN tin));
        destruct (Nat.eqb (List.length (cleanTIN tin)) 10);
        destruct (Nat.eqb (List.length (cleanTIN tin)) 12);
        destruct (TIN_PATTERN (filter (fun c => negb (isSpace c)) tin));
        reflexivity.
Qed.

(** X23. [validateTIN] accepts a string exactly when what is left of it
    without white space and hyphens is ten or twelve digits: the hyphens
    may stand anywhere and the test against [TIN_PATTERN] changes nothing.
    The message is ["Valid TIN format"] exactly for the accepted strings,
    and ["Invalid TIN format"] is never returned. *)
Theorem validateTIN_accepts_iff (tin : jsString) :
  Validation.valid (validateTIN tin) = tenOrTwelveDigits (cleanTIN tin)
  /\ (Validation.valid (validateTIN tin) = true
      <-> Validation.message (validateTIN tin) = "Valid TIN format"%string)
  /\ Validation.message (validateTIN tin) <> "Invalid TIN format"%string.
Proof.
  unfold validateTIN, tenOrTwelveDigits. fold (cleanTIN tin).
  destruct (Nat.eqb (List.length tin) 0) eqn:E0.
  - apply Nat.eqb_eq in E0. apply length_zero_iff_nil in E0. subst tin.
    cbn. repeat split; intros; try reflexivity; discriminate.
  - cbn [orb]. destruct (isBlank tin) eqn:Eb.
    + rewrite (cleanTIN_blank tin Eb). cbn.
      repeat split; intros; try reflexivity; discriminate.
    + destruct (onlyDigits (cleanTIN tin));
        destruct (Nat.eqb (List.length (cleanTIN tin)) 10);
        destruct (Nat.eqb (List.length (cleanTIN tin)) 12);
        destruct (TIN_PATTERN (filter (fun c => negb (isSpace c)) tin));
        cbn [negb andb orb Validation.valid Validation.message];
        repeat split; intros; try reflexivity; discriminate.
Qed.

(** X24. [validateTIN] accepts every string that, white space removed,
    has one of the two formats of [TIN_PATTERN]: ten digits, or eight
    digits, a hyphen and four digits. *)
Theorem validateTIN_accepts_pattern (tin : jsString) :
  TIN_PATTERN (withoutSpaces tin) = true ->
  Validation.valid (validateTIN tin) = true.
Proof.
  intro H.
  rewrite validateTIN_valid, cleanTIN_withoutSpaces.
  now apply TIN_PATTERN_digits.
Qed.

Lemma validateTIN_accepts_pattern_witness :
  TIN_PATTERN (withoutSpaces spacedTIN) = true
  /\ Validation.valid (validateTIN spacedTIN) = true.
Proof.
  split; [reflexivity |].
  apply (validateTIN_accepts_pattern spacedTIN). reflexivity.
Defined.

Lemma calculateMultiItemVAT_all_exempt_witness :
  Forall (fun item => itemExempt item = true)
         [VATItem.mk "bread" 400 (Some true);
          VATItem.mk "books" 2500 (Some true)]
  /\ MultiItemVAT.grandTotal
       (calculateMultiItemVAT
          [VATItem.mk "bread" 400 (Some true);
           VATItem.mk "books" 2500 (Some true)])
     == MultiItemVAT.totalNet
          (calculateMultiItemVAT
             [VATItem.mk "bread" 400 (Some true);
              VATItem.mk "books" 2500 (Some true)]).
Proof.
  assert (H : Forall (fun item => itemExempt item = true)
                [VATItem.mk "bread" 400 (Some true);
                 VATItem.mk "books" 2500 (Some true)])
    by (repeat constructor).
  split; [exact H |].
  apply (calculateMultiItemVAT_all_exempt
           [VATItem.mk "bread" 400 (Some true);
            VATItem.mk "books" 2500 (Some true)] H).
Defined.

Example threeItems_result :
  let r := calculateMultiItemVAT threeItems in
  MultiItemVAT.totalNet r == 2000
  /\ MultiItemVAT.totalVAT r == 120
  /\ MultiItemVAT.grandTotal r == 2120
  /\ map VATLine.isExempt (MultiItemVAT.items r) = [false; true; false].
Proof. repeat split; vm_compute; reflexivity. Qed.

(** ** The effective rate of the personal income tax *)

Lemma calculateDeductions_total_nonneg (deductions : list Deduction.t)
  (g : Q) :
  0 <= g ->
  Forall (fun d => 0 <= Deduction.amount d) deductions ->
  0 <= fst (calculateDeductions deductions g).
Proof.
  intros Hg H. unfold calculateDeductions.
  pose proof (deduction_loop_total g deductions (0, [])) as E.
  pose proof (sumApplied_nonneg g deductions Hg H) as N.
  destruct (fold_left (deductionStep g) deductions (0, []))
    as [total applied].
  cbn [fst] in *. destruct (gtb total g); lra.
Qed.

Section pitRate.
Context {host : Locale}.

Lemma calculatePIT_effectiveRate (incomeSources : list IncomeSource.t)
  (deductions : list Deduction.t) (isResident : bool) :
  let r := calculatePIT incomeSources deductions isResident in
  PITResult.effectiveRate r
  = if PITResult.isExempt r then 0
    else if gtb (PITResult.grossIncome r) 0
         then PITResult.totalTax r / PITResult.grossIncome r * 100
         else 0.
Proof.
  intro r. subst r. unfold calculatePIT.
  destruct (leb _ PIT_EXEMPT_THRESHOLD);
    cbn [PITResult.effectiveRate PITResult.isExempt PITResult.grossIncome
         PITResult.totalTax];
    [| destruct isResident]; reflexivity.
Qed.

(** X26. When no deduction is negative, the effective rate returned by
    [calculatePIT] lies between 0 and 25: the tax is at most a quarter of
    the taxable income, which is at most the gross income. *)
Theorem calculatePIT_effectiveRate_bounds
  (incomeSources : list IncomeSource.t) (deductions : list Deduction.t)
  (isResident : bool) :
  Forall (fun d => 0 <= Deduction.amount d) deductions ->
  0 <= PITResult.effectiveRate
         (calculatePIT incomeSources deductions isResident)
  /\ PITResult.effectiveRate
       (calculatePIT incomeSources deductions isResident) <= 25.
Proof.
  intro Hd.
  pose proof (calculatePIT_effectiveRate incomeSources deductions isResident)
    as ER. cbv zeta in ER. rewrite ER. clear ER.
  destruct (calculatePIT_amounts incomeSources deductions isResident)
    as [EG [_ [_ [HD [ETax _]]]]].
  rewrite EG.
  set (G := calculateGrossIncome incomeSources) in *.
  set (D := fst (calculateDeductions deductions G)) in *.
  destruct (PITResult.isExempt _); [split; lra |].
  destruct (gtb_spec G 0) as [Hpos | _]; [| split; lra].
  assert (ND : 0 <= D)
    by (apply calculateDeductions_total_nonneg; [lra | assumption]).
  assert (HT : 0 <= G - D) by lra.
  destruct (progressiveSchedule_bounds (G - D) HT) as [L U].
  set (T := PITResult.totalTax _) in *.
  assert (Q1 : 0 <= T / G) by (apply Qle_shift_div_l; lra).
  assert (Q2 : T / G <= 25 # 100)
    by (apply Qle_shift_div_r; [lra | lra_percent]).
  split; lra.
Qed.

End pitRate.

Lemma calculatePIT_effectiveRate_bounds_witness :
  Forall (fun d => 0 <= Deduction.amount d) pensionAndRent
  /\ PITResult.effectiveRate
       (@calculatePIT plainDigits salaryAndBonus pensionAndRent true) <= 25.
Proof.
  assert (H : Forall (fun d => 0 <= Deduction.amount d) pensionAndRent)
    by (repeat constructor; cbn [Deduction.amount]; lra).
  split; [exact H |].
  apply (@calculatePIT_effectiveRate_bounds plainDigits salaryAndBonus
           pensionAndRent true H).
Defined.

Example salaryAndBonus_result :
  let r := @calculatePIT plainDigits salaryAndBonus pensionAndRent true in
  PITResult.grossIncome r == 7000000
  /\ PITResult.totalDeductions r == 860000
  /\ PITResult.taxableIncome r == 6140000
  /\ PITResult.totalTax r == 895200
  /\ PITResult.netTakeHome r == 5244800
  /\ PITResult.isExempt r = false.
Proof. repeat split; vm_compute; reflexivity. Qed.

(** ** The quick estimates and the effective corporate rate *)

Section estimates.
Context {host : Locale}.

(** X27. For an annual income [A >= 0], [quickPITEstimate] taxes the
    whole income: no deduction is counted, the taxable income is [A], the
    tax is the tax schedule of [A] and the net take-home pay is [A] less
    that tax. *)
Theorem quickPITEstimate_schedule (A : Q) :
  0 <= A ->
  let r := quickPITEstimate A in
  PITResult.grossIncome r == A
  /\ PITResult.totalDeductions r == 0
  /\ PITResult.taxableIncome r == A
  /\ PITResult.totalTax r == progressiveSchedule A
  /\ PITResult.netTakeHome r == A - progressiveSchedule A.
Proof.
  intros HA r. subst r. unfold quickPITEstimate.
  destruct (calculatePIT_amounts [IncomeSource.mk "salary" A] [] true)
    as [EG [ED [ET [_ [ETax [EN _]]]]]].
  assert (G : calculateGrossIncome [IncomeSource.mk "salary" A] == A)
    by (unfold calculateGrossIncome; cbn [fold_left IncomeSource.amount];
        ring).
  assert (D : fst (calculateDeductions
                     [] (calculateGrossIncome [IncomeSource.mk "salary" A]))
              == 0).
  { unfold calculateDeductions. cbn [fold_left fst].
    rewrite gtb_false by lra. reflexivity. }
  assert (S : progressiveSchedule
                (calculateGrossIncome [IncomeSource.mk "salary" A]
                 - fst (calculateDeductions
                          [] (calculateGrossIncome
                                [IncomeSource.mk "salary" A])))
              == progressiveSchedule A)
    by (apply progressiveSchedule_wd; lra).
  rewrite EG, ED, ET, EN, ETax.
  repeat split; lra.
Qed.

(** X28. The quick estimates of the corporate calculators never apply
    the reliefs that need an input they do not pass: [quickCGTEstimate]
    for a company charges 30% of the gain and is never exempt, as no
    turnover is given; [quickCITEstimate] for a turnover above 100,000,000
    charges the 30% and the 4% of the profits and nothing else, with no
    top-up and no tax on foreign profits. *)
Theorem quick_corporate_estimates (turnover profits saleProceeds
  acquisitionCost : Q) :
  let g := quickCGTEstimate company saleProceeds acquisitionCost in
  let c := quickCITEstimate turnover profits in
  CGTResult.capitalGain g == Math.max 0 (saleProceeds - acquisitionCost)
  /\ CGTResult.cgtAmount g == CGTResult.capitalGain g * 30 / 100
  /\ CGTResult.isExempt g = false
  /\ (100000000 < turnover ->
      CITResult.totalTaxPayable c == profits * 30 / 100 + profits * 4 / 100
      /\ CITResult.minimumTaxTopUp c == 0
      /\ CITResult.cfcTax c == 0).
Proof.
  intros g c. subst g c. unfold quickCGTEstimate, quickCITEstimate.
  split; [| split; [| split]].
  - unfold calculateCGT, calculateCompanyCGT, calculateTotalCosts.
    cbn [CGTInput.taxpayerType CGTInput.companyTurnover
         CGTInput.saleProceeds CGTInput.acquisitionCost
         CGTInput.improvementCosts CGTInput.transferCosts orZero
         CGTResult.capitalGain].
    unfold Math.max. apply Q.max_compat; [reflexivity | ring].
  - unfold calculateCGT, calculateCompanyCGT.
    cbn [CGTInput.taxpayerType CGTInput.companyTurnover
         CGTResult.capitalGain CGTResult.cgtAmount].
    reflexivity.
  - reflexivity.
  - intro Ht. unfold calculateCIT. cbn [CITInput.turnover].
    rewrite (determineCompanySize_other _ Ht).
    unfold calculateOtherCompanyCIT.
    cbn [CITInput.assessableProfits CITInput.isMultinationalSubject
         CITInput.foreignProfits CITInput.distributedForeignProfits
         CITResult.totalTaxPayable CITResult.minimumTaxTopUp
         CITResult.cfcTax].
    unfold calculateMinimumTaxTopUp, calculateCFCTax, CIT_RATE,
      DEVELOPMENT_LEVY_RATE.
    cbn [negb orb orZero].
    assert (M : Math.max 0 (0 - 0) == 0) by (vm_compute; reflexivity).
    rewrite M. repeat split; try reflexivity; unfold Qdiv; ring.
Qed.


End estimates.

Lemma quickPITEstimate_schedule_witness :
  0 <= 1000000
  /\ PITResult.totalTax (@quickPITEstimate plainDigits 1000000)
     == progressiveSchedule 1000000.
Proof.
  split; [lra |].
  apply (@quickPITEstimate_schedule plainDigits 1000000). lra.
Defined.

